(** * SMAWebConnect: the SMA inverter poller of [smawebconnect/py3_main.py]

    A shallow embedding of the plugin: the values [requests] and [json] hand
    to the code, the dynamically typed operations the code applies to them,
    the two classes [SIDPersister] and [SMAWebConnect] as functions of an
    explicit world (object fields, disk, network, clock, output), and the
    properties of the polling cycle, the value extraction and the metrics
    queue. *)

From Stdlib Require Import ZArith Floats String Ascii List Lia.
From stdpp Require Import gmap strings list.

Local Open Scope list_scope.
Local Open Scope string_scope.

(** ** Values parsed from JSON

    [json.loads] builds [None], [bool], [int], [float], [str], [list] and
    [dict] objects.  A [dict] keeps insertion order, so an object is a list
    of bindings; the parser never leaves two bindings with one key.  Floats
    are binary64, as in CPython. *)

#[warnings="-register-all"]
Inductive json : Type :=
| JNull
| JBool (b : bool)
| JInt (z : Z)
| JFloat (x : float)
| JStr (s : string)
| JArr (items : list json)
| JObj (bindings : list (string * json)).

(** The exception classes that the code and the operations under it raise;
    all of them derive from [Exception].  [RuntimeError] carries the message
    the source gives it. *)
Inductive exn : Type :=
| RuntimeError (msg : string)
| TypeError
| KeyError
| IndexError
| ValueError
| AttributeError
| OverflowError
| ZeroDivisionError
| OSError
| RequestException.

Inductive result (A : Type) : Type :=
| Ok (a : A)
| Err (e : exn).
Arguments Ok {A} a.
Arguments Err {A} e.

(** *** Dictionaries *)

Fixpoint dict_get (k : string) (d : list (string * json)) : option json :=
  match d with
  | [] => None
  | (k', v) :: rest => if String.eqb k k' then Some v else dict_get k rest
  end.

Definition dict_has (k : string) (d : list (string * json)) : bool :=
  match dict_get k d with Some _ => true | None => false end.

(** *** Strings *)

Fixpoint chars (s : string) : list string :=
  match s with
  | EmptyString => []
  | String c rest => String c EmptyString :: chars rest
  end.

(** [k in s] for two [str]: [k] occurs in [s]. *)
Definition occurs_in (k s : string) : bool :=
  match k with
  | EmptyString => true
  | _ => match String.index 0 k s with Some _ => true | None => false end
  end.

(** *** The operators of the language on parsed values *)

(** [len(v)] *)
Definition py_len (v : json) : result nat :=
  match v with
  | JStr s => Ok (String.length s)
  | JArr items => Ok (length items)
  | JObj d => Ok (length d)
  | _ => Err TypeError
  end.

Definition is_str (k : string) (v : json) : bool :=
  match v with JStr s => String.eqb k s | _ => false end.

(** [k in v] for a [str] literal or key [k]. *)
Definition py_in (k : string) (v : json) : result bool :=
  match v with
  | JObj d => Ok (dict_has k d)
  | JArr items => Ok (existsb (is_str k) items)
  | JStr s => Ok (occurs_in k s)
  | _ => Err TypeError
  end.

(** A list index: negative indices count from the end. *)
Definition seq_index {A : Type} (l : list A) (i : Z) : result A :=
  let n := Z.of_nat (length l) in
  let j := if (i <? 0)%Z then (i + n)%Z else i in
  if ((j <? 0)%Z || (n <=? j)%Z)%bool then Err IndexError
  else match nth_error l (Z.to_nat j) with
       | Some a => Ok a
       | None => Err IndexError
       end.

Definition hashable (v : json) : bool :=
  match v with JArr _ | JObj _ => false | _ => true end.

(** [v[i]] *)
Definition py_getitem (v i : json) : result json :=
  match v with
  | JObj d =>
      match i with
      | JStr k => match dict_get k d with Some x => Ok x | None => Err KeyError end
      | _ => if hashable i then Err KeyError else Err TypeError
      end
  | JArr items =>
      match i with
      | JInt z => seq_index items z
      | JBool b => seq_index items (if b then 1 else 0)%Z
      | _ => Err TypeError
      end
  | JStr s =>
      match i with
      | JInt z => match seq_index (chars s) z with Ok c => Ok (JStr c) | Err e => Err e end
      | JBool b =>
          match seq_index (chars s) (if b then 1 else 0)%Z with
          | Ok c => Ok (JStr c)
          | Err e => Err e
          end
      | _ => Err TypeError
      end
  | _ => Err TypeError
  end.

(** [for x in v] *)
Definition py_iter (v : json) : result (list json) :=
  match v with
  | JObj d => Ok (map (fun kv => JStr (fst kv)) d)
  | JArr items => Ok items
  | JStr s => Ok (map JStr (chars s))
  | _ => Err TypeError
  end.

(** [v.get(k, default)]: only a [dict] has the method. *)
Definition py_get (v : json) (k : string) (dflt : json) : result json :=
  match v with
  | JObj d => Ok (match dict_get k d with Some x => x | None => dflt end)
  | _ => Err AttributeError
  end.

(** [list(v.keys())] *)
Definition py_keys (v : json) : result (list string) :=
  match v with
  | JObj d => Ok (map fst d)
  | _ => Err AttributeError
  end.

(** [int] to [float]: round to nearest, ties to even; too large an [int]
    raises [OverflowError]. *)
Definition Z_to_float (z : Z) : float :=
  SF2Prim (binary_normalize prec emax z 0 false).

Definition float_of_Z (z : Z) : result float :=
  let x := Z_to_float z in
  if PrimFloat.is_infinity x then Err OverflowError else Ok x.

(** [v == n] for an [int] literal [n]. *)
Definition py_eq_int (v : json) (n : Z) : bool :=
  match v with
  | JInt z => (z =? n)%Z
  | JFloat x => PrimFloat.eqb x (Z_to_float n)
  | JBool b => ((if b then 1 else 0) =? n)%Z
  | _ => false
  end.

(** The truth value of [v], as [if v:] takes it. *)
Definition py_truthy (v : json) : bool :=
  match v with
  | JNull => false
  | JBool b => b
  | JInt z => negb (z =? 0)%Z
  | JFloat x => negb (PrimFloat.eqb x 0)
  | JStr s => negb (String.eqb s "")
  | JArr items => negb (Nat.eqb (length items) 0)
  | JObj d => negb (Nat.eqb (length d) 0)
  end.

(** [x / y] on floats. *)
Definition py_div (x y : float) : result float :=
  if PrimFloat.eqb y 0 then Err ZeroDivisionError else Ok (x / y)%float.

(** [sum(xs)]: the start value is the [int] 0 and the additions go left to
    right, each rounded (CPython 3.12 and later carry the rounding errors
    along and add them at the end). *)
Definition py_sum (xs : list float) : float :=
  fold_left PrimFloat.add xs 0%float.

(** ** What the interpreter provides

    The string forms of numbers, containers and built-in exceptions, the
    parser behind [float(str)] and the calendar behind [time.asctime] belong
    to the interpreter; the development is parametric in them. *)
Record runtime : Type := {
  repr_of : json -> string;
  float_of_str : string -> option float;
  exn_text : exn -> string;
  asctime : float -> string
}.

(** ['{0}'.format(v)] *)
Definition fmt (py : runtime) (v : json) : string :=
  match v with
  | JStr s => s
  | JNull => "None"
  | JBool true => "True"
  | JBool false => "False"
  | _ => repr_of py v
  end.

(** ['{0}'.format(ex)] *)
Definition fmt_exn (py : runtime) (e : exn) : string :=
  match e with
  | RuntimeError msg => msg
  | _ => exn_text py e
  end.

(** [float(v)] *)
Definition py_float (py : runtime) (v : json) : result float :=
  match v with
  | JBool b => Ok (if b then 1 else 0)%float
  | JInt z => float_of_Z z
  | JFloat x => Ok x
  | JStr s => match float_of_str py s with Some x => Ok x | None => Err ValueError end
  | _ => Err TypeError
  end.

(** ** Samples, output and the world *)

(** The values a metrics dictionary holds: floats, the [bool] of "online",
    and, as far as its type goes, [None]. *)
Inductive pyval : Type :=
| PNone
| PFloat (x : float)
| PBool (b : bool).

(** [{'type': .., 'timestamp': .., 'tags': {'device': ..}, 'values': ..}] *)
Record sample : Type := {
  sample_type : string;
  timestamp : float;
  tags_device : string;
  sample_values : gmap string pyval
}.

(** What the process does to the outside, newest first. *)
Inductive event : Type :=
| Logged (line : string)
| ExceptionLogged (e : exn)
| Posted (url : string) (body : json)
| Slept (seconds : Z).

(** The text of the session file, seen through [json.load]: [json.dump]
    writes text that parses back to the value dumped. *)
Inductive file_text : Type :=
| Unparsable
| Parses (doc : json).

(** The file at the persister's path: [content] is [None] when there is no
    such file; [readable] and [writable] say whether [open] succeeds;
    [disk_full] makes a write fail after [open] has truncated the file. *)
Record fs : Type := {
  content : option file_text;
  readable : bool;
  writable : bool;
  disk_full : bool
}.

(** The mutable fields of the plugin object ([_sma_sid], [_metrics_queue]:
    the left end of the deque is the head of the list) and its environment:
    the session file, the device ([wire n] is what the [n]-th request of the
    process gets, a parsed body or an exception of [requests]), the clock
    ([wall n] is the [n]-th reading of it) and the output so far. *)
Record world : Type := {
  _sma_sid : gmap string json;
  _metrics_queue : list sample;
  disk : fs;
  wire : nat -> result json;
  posts : nat;
  wall : nat -> float;
  ticks : nat;
  trace : list event
}.

Definition emit (e : event) (w : world) : world :=
  {| _sma_sid := _sma_sid w; _metrics_queue := _metrics_queue w; disk := disk w;
     wire := wire w; posts := posts w; wall := wall w; ticks := ticks w;
     trace := e :: trace w |}.

Definition set_sid (ip : string) (sid : json) (w : world) : world :=
  {| _sma_sid := <[ip := sid]> (_sma_sid w); _metrics_queue := _metrics_queue w;
     disk := disk w; wire := wire w; posts := posts w; wall := wall w;
     ticks := ticks w; trace := trace w |}.

Definition set_queue (q : list sample) (w : world) : world :=
  {| _sma_sid := _sma_sid w; _metrics_queue := q; disk := disk w;
     wire := wire w; posts := posts w; wall := wall w; ticks := ticks w;
     trace := trace w |}.

Definition set_content (c : option file_text) (w : world) : world :=
  {| _sma_sid := _sma_sid w; _metrics_queue := _metrics_queue w;
     disk := {| content := c; readable := readable (disk w);
                writable := writable (disk w); disk_full := disk_full (disk w) |};
     wire := wire w; posts := posts w; wall := wall w; ticks := ticks w;
     trace := trace w |}.

Definition sent (url : string) (body : json) (w : world) : world :=
  {| _sma_sid := _sma_sid w; _metrics_queue := _metrics_queue w; disk := disk w;
     wire := wire w; posts := S (posts w); wall := wall w; ticks := ticks w;
     trace := Posted url body :: trace w |}.

Definition tick (w : world) : world :=
  {| _sma_sid := _sma_sid w; _metrics_queue := _metrics_queue w; disk := disk w;
     wire := wire w; posts := posts w; wall := wall w; ticks := S (ticks w);
     trace := trace w |}.

(** ** Computations

    A method is a function of the world that returns, raises, or, for a
    loop without a bound, is cut off when its fuel is spent. *)
Inductive outcome (A : Type) : Type :=
| Ret (a : A) (w : world)
| Raise (e : exn) (w : world)
| OutOfFuel.
Arguments Ret {A} a w.
Arguments Raise {A} e w.
Arguments OutOfFuel {A}.

Definition M (A : Type) : Type := world -> outcome A.

Definition ret {A : Type} (a : A) : M A := fun w => Ret a w.

Definition raise {A : Type} (e : exn) : M A := fun w => Raise e w.

Definition bind {A B : Type} (m : M A) (k : A -> M B) : M B :=
  fun w =>
    match m w with
    | Ret a w' => k a w'
    | Raise e w' => Raise e w'
    | OutOfFuel => OutOfFuel
    end.

(** [try: m except Exception as ex: h ex] *)
Definition try_except {A : Type} (m : M A) (h : exn -> M A) : M A :=
  fun w =>
    match m w with
    | Ret a w' => Ret a w'
    | Raise e w' => h e w'
    | OutOfFuel => OutOfFuel
    end.

Definition lift {A : Type} (r : result A) : M A :=
  fun w => match r with Ok a => Ret a w | Err e => Raise e w end.

Notation "'let!' x ':=' m 'in' k" := (bind m (fun x => k))
  (at level 10, x name, m at level 200, k at level 200,
   format "'[v' 'let!'  x  ':='  m  'in' '/' k ']'").
Notation "'do!' m 'in' k" := (bind m (fun _ => k))
  (at level 10, m at level 200, k at level 200,
   format "'[v' 'do!'  m  'in' '/' k ']'").

(** [self.logger(line)] *)
Definition logger (line : string) : M unit := fun w => Ret tt (emit (Logged line) w).

(** [logging.exception(ex)] *)
Definition logging_exception (e : exn) : M unit :=
  fun w => Ret tt (emit (ExceptionLogged e) w).

(** [requests.post(url, json=body, verify=False).json()] *)
Definition post (url : string) (body : json) : M json :=
  fun w =>
    match wire w (posts w) with
    | Ok v => Ret v (sent url body w)
    | Err e => Raise e (sent url body w)
    end.

(** [time.time()] *)
Definition time_time : M float := fun w => Ret (wall w (ticks w)) (tick w).

(** [time.asctime()] *)
Definition time_asctime (py : runtime) : M string :=
  fun w => Ret (asctime py (wall w (ticks w))) (tick w).

(** [time.sleep(seconds)] *)
Definition time_sleep (seconds : Z) : M unit := fun w => Ret tt (emit (Slept seconds) w).

(** ** [class SIDPersister] *)
Module SIDPersister.

(** [open(self.path, 'r')] and the text read through it. *)
Definition open_read : M file_text :=
  fun w =>
    match content (disk w) with
    | Some t => if readable (disk w) then Ret t w else Raise OSError w
    | None => Raise OSError w
    end.

(** [json.load(f)] *)
Definition json_load (t : file_text) : result json :=
  match t with
  | Parses doc => Ok doc
  | Unparsable => Err ValueError
  end.

(** [open(self.path, 'w')]: the file is created or truncated. *)
Definition open_write : M unit :=
  fun w =>
    if writable (disk w) then Ret tt (set_content (Some Unparsable) w)
    else Raise OSError w.

(** [json.dump(doc, f)] and the close of [f]. *)
Definition json_dump (doc : json) : M unit :=
  fun w =>
    if disk_full (disk w) then Raise OSError w
    else Ret tt (set_content (Some (Parses doc)) w).

Definition get_body : M json :=
  let! f := open_read in
  let! doc := lift (json_load f) in
  let! sid := lift (py_getitem doc (JStr "sid")) in
  do! logger "Retrieving previously stored sessionid" in
  ret sid.

Definition get : M json :=
  try_except get_body (fun ex => do! logging_exception ex in ret JNull).

Definition save_body (sid : json) : M unit :=
  do! open_write in
  do! json_dump (JObj [("sid", sid)]) in
  logger "Persisted new session id".

Definition save (sid : json) : M unit :=
  try_except (save_body sid) (fun ex => logging_exception ex).

End SIDPersister.

(** ** [class SMAWebConnect] *)
Module SMAWebConnect.

(** An entry of [FIELD_MAPPING]. *)
Record field_info : Type := {
  name : string;
  description : string;
  unit_ : string;
  type_ : string;
  factor : float
}.

Definition FIELD_MAPPING : list (string * field_info) :=
  [
    ("6100_40263F00", {| name := "grid_power"; description := "Grid power";
        unit_ := "W"; type_ := "gauge"; factor := 1 |});
    ("6100_00465700", {| name := "frequency"; description := "Frequency";
        unit_ := "Hz"; type_ := "gauge"; factor := 100 |});
    ("6100_00464800", {| name := "voltage_l1"; description := "Voltage L1";
        unit_ := "V"; type_ := "gauge"; factor := 100 |});
    ("6100_00464900", {| name := "voltage_l2"; description := "Voltage L2";
        unit_ := "V"; type_ := "gauge"; factor := 100 |});
    ("6100_00464A00", {| name := "voltage_l3"; description := "Voltage L3";
        unit_ := "V"; type_ := "gauge"; factor := 100 |});
    ("6100_40465300", {| name := "current_l1"; description := "Current L1";
        unit_ := "A"; type_ := "gauge"; factor := 1000 |});
    ("6100_40465400", {| name := "current_l2"; description := "Current L2";
        unit_ := "A"; type_ := "gauge"; factor := 1000 |});
    ("6100_40465500", {| name := "current_l3"; description := "Current L3";
        unit_ := "A"; type_ := "gauge"; factor := 1000 |});
    ("6100_0046C200", {| name := "pv_power"; description := "PV power";
        unit_ := "W"; type_ := "gauge"; factor := 1 |});
    ("6380_40451F00", {| name := "pv_voltage"; description := "PV voltage (average of all PV channels)";
        unit_ := "V"; type_ := "gauge"; factor := 100 |});
    ("6380_40452100", {| name := "pv_current"; description := "PV current (average of all PV channels)";
        unit_ := "A"; type_ := "gauge"; factor := 1000 |});
    ("6400_0046C300", {| name := "pv_gen_meter"; description := "PV generation meter";
        unit_ := "Wh"; type_ := "counter"; factor := 1 |});
    ("6400_00260100", {| name := "total_yield"; description := "Total yield";
        unit_ := "Wh"; type_ := "counter"; factor := 1 |});
    ("6400_00262200", {| name := "daily_yield"; description := "Daily yield";
        unit_ := "Wh"; type_ := "counter"; factor := 1 |});
    ("6100_40463600", {| name := "grid_power_supplied"; description := "Grid power supplied";
        unit_ := "W"; type_ := "gauge"; factor := 1 |});
    ("6100_40463700", {| name := "grid_power_absorbed"; description := "Grid power absorbed";
        unit_ := "W"; type_ := "gauge"; factor := 1 |});
    ("6400_00462400", {| name := "grid_total_yield"; description := "Grid total yield";
        unit_ := "Wh"; type_ := "counter"; factor := 1 |});
    ("6400_00462500", {| name := "grid_total_absorbed"; description := "Grid total absorbed";
        unit_ := "Wh"; type_ := "counter"; factor := 1 |});
    ("6100_00543100", {| name := "current_consumption"; description := "Current consumption";
        unit_ := "W"; type_ := "gauge"; factor := 1 |});
    ("6400_00543A00", {| name := "total_consumption"; description := "Total consumption";
        unit_ := "Wh"; type_ := "counter"; factor := 1 |})
  ]%float.

(** An entry of [self._sma_devices]. *)
Record device : Type := {
  sma_inverter_ip : string;
  password : string
}.

(** The fields of the object that are set once. *)
Record plugin : Type := {
  _sample_rate : Z;
  _sma_devices : list device
}.

Definition __init__ (device_ip device_password : string) : M plugin :=
  do! (fun w => Ret tt (set_queue [] w)) in
  let web_address := "https://" ++ device_ip in
  let! session_id := SIDPersister.get in
  do! (fun w =>
         Ret tt
           {| _sma_sid := if py_truthy session_id then {[ web_address := session_id ]} else ∅;
              _metrics_queue := _metrics_queue w; disk := disk w; wire := wire w;
              posts := posts w; wall := wall w; ticks := ticks w; trace := trace w |}) in
  ret {| _sample_rate := 30;
         _sma_devices := [ {| sma_inverter_ip := web_address;
                              password := device_password |} ] |}.

Definition _log_debug (message : string) : M unit := logger message.

Definition dashes : string := "----------------------------------------".

Definition _log_separator : M unit := logger dashes.

Definition _clean_value (py : runtime) (key : string) (value_container : json)
    (factor : float) : M (option float) :=
  let! has_val := lift (py_in "val" value_container) in
  if negb has_val then
    do! logger ("* Unexpected structure for " ++ key ++ ": " ++ fmt py value_container) in
    ret None
  else
    let! value := lift (py_getitem value_container (JStr "val")) in
    match value with
    | JNull => ret None
    | _ =>
        let! x := lift (py_float py value) in
        let! q := lift (py_div x factor) in
        ret (Some q)
    end.

(** The loop of [_extract_values] over the channel instances. *)
Fixpoint clean_each (py : runtime) (key : string) (factor : float)
    (raw_values : list json) (return_data : list (option float))
    : M (list (option float)) :=
  match raw_values with
  | [] => ret return_data
  | raw_value :: rest =>
      let! value := _clean_value py key raw_value factor in
      match value with
      | Some _ => clean_each py key factor rest (return_data ++ [value])%list
      | None => clean_each py key factor rest return_data
      end
  end.

Definition _extract_values (py : runtime) (key : string) (values : json)
    (factor : float) : M (list (option float)) :=
  let! n := lift (py_len values) in
  let! unexpected :=
    if negb (n =? 1)%nat then ret true
    else let! has_1 := lift (py_in "1" values) in ret (negb has_1) in
  if unexpected : bool then
    do! logger ("* Unexpected structure for " ++ key ++ ": " ++ fmt py values) in
    ret []
  else
    let! values := lift (py_getitem values (JStr "1")) in
    let! n := lift (py_len values) in
    if (n =? 0)%nat then ret []
    else if (n =? 1)%nat then
      let! first := lift (py_getitem values (JInt 0)) in
      let! value := _clean_value py key first factor in
      ret [value]
    else
      let! raw_values := lift (py_iter values) in
      clean_each py key factor raw_values [].

(** ['{0}/dyn/login.json'.format(ip)] *)
Definition login_endpoint (ip : string) : string := ip ++ "/dyn/login.json".

(** [{'right': 'usr', 'pass': sma_device['password']}] *)
Definition login_json (sma_device : device) : json :=
  JObj [("right", JStr "usr"); ("pass", JStr (password sma_device))].

Definition _login (py : runtime) (sma_device : device) : M unit :=
  do! logger "Doing new login" in
  let ip := sma_inverter_ip sma_device in
  let endpoint := login_endpoint ip in
  let! response := post endpoint (login_json sma_device) in
  let! has_result := lift (py_in "result" response) in
  let! has_sid :=
    if has_result : bool then
      let! result := lift (py_getitem response (JStr "result")) in
      lift (py_in "sid" result)
    else ret false in
  if has_sid : bool then
    let! result := lift (py_getitem response (JStr "result")) in
    let! sid := lift (py_getitem result (JStr "sid")) in
    do! (fun w => Ret tt (set_sid ip sid w)) in
    SIDPersister.save sid
  else
    let! error_code := lift (py_get response "err" (JStr "unknown")) in
    if py_eq_int error_code 503 then raise (RuntimeError "Maximum amount of sessions")
    else raise (RuntimeError ("Could not login: " ++ fmt py error_code)).

Definition _enqueue_metrics (py : runtime) (device_id : string)
    (values : gmap string pyval) : M unit :=
  try_except
    (let! now := time_time in
     fun w =>
       Ret tt
         (set_queue
            ({| sample_type := "sma"; timestamp := now; tags_device := device_id;
                sample_values := values |} :: _metrics_queue w) w))
    (fun ex => logger ("Got unexpected error while enqueueing metrics: " ++ fmt_exn py ex)).

(** [self._metrics_queue.pop()]: the right end of the deque. *)
Definition deque_pop : M sample :=
  fun w =>
    match _metrics_queue w with
    | [] => Raise IndexError w
    | s :: q => Ret (List.last q s) (set_queue (removelast (s :: q)) w)
    end.

(** One resumption of the generator [collect_metrics]: the next sample it
    yields, or [None] when it returns. *)
Definition collect_metrics_next : M (option sample) :=
  try_except
    (let! s := deque_pop in ret (Some s))
    (fun ex => match ex with IndexError => ret None | _ => raise ex end).

(** The samples a consumer gets that iterates [collect_metrics()] to its
    end. *)
Fixpoint collect_metrics (fuel : nat) : M (list sample) :=
  match fuel with
  | O => fun _ => OutOfFuel
  | S fuel' =>
      let! next := collect_metrics_next in
      match next with
      | None => ret []
      | Some s => let! rest := collect_metrics fuel' in ret (s :: rest)
      end
  end.

(** [f'{ip}/dyn/getValues.json?sid={sid}'] *)
Definition values_endpoint (py : runtime) (ip : string) (sid : json) : string :=
  ip ++ "/dyn/getValues.json?sid=" ++ fmt py sid.

(** [{'destDev': [], 'keys': list(SMAWebConnect.FIELD_MAPPING.keys())}] *)
Definition values_json : json :=
  JObj [("destDev", JArr []);
        ("keys", JArr (map (fun kv => JStr (fst kv)) FIELD_MAPPING))].

(** [self._sma_sid.get(ip, '')] *)
Definition current_sid (ip : string) (w : world) : json :=
  default (JStr "") (_sma_sid w !! ip).

(** The request loop at the head of [_read_data]. *)
Fixpoint fetch (py : runtime) (fuel : nat) (sma_device : device) : M json :=
  match fuel with
  | O => fun _ => OutOfFuel
  | S fuel' =>
      let ip := sma_inverter_ip sma_device in
      let! sid := (fun w => Ret (current_sid ip w) w) in
      let endpoint := values_endpoint py ip sid in
      let! response := post endpoint values_json in
      let! err := lift (py_get response "err" JNull) in
      if py_eq_int err 401 then
        do! _login py sma_device in
        fetch py fuel' sma_device
      else ret response
  end.

Definition fmt_value (py : runtime) (value : option float) : string :=
  match value with
  | Some x => fmt py (JFloat x)
  | None => "None"
  end.

Definition unit_if_value (info : field_info) (value : option float) : string :=
  match value with Some _ => unit_ info | None => "" end.

Fixpoint log_each (info : field_info) (values : list (option float)) : M unit :=
  match values with
  | [] => ret tt
  | value :: rest =>
      do! _log_debug ("    " ++ description info ++ unit_if_value info value) in
      log_each info rest
  end.

(** [[value for value in values if value is not None]] *)
Fixpoint not_none (values : list (option float)) : list float :=
  match values with
  | [] => []
  | Some x :: rest => x :: not_none rest
  | None :: rest => not_none rest
  end.

(** The body of the loop of [_read_data] over [FIELD_MAPPING.items()]. *)
Definition read_field (py : runtime) (data : json) (entry : string * field_info)
    (metrics_values : gmap string pyval) : M (gmap string pyval) :=
  let key := fst entry in
  let info := snd entry in
  let! present := lift (py_in key data) in
  if present : bool then
    let! raw := lift (py_getitem data (JStr key)) in
    let! values := _extract_values py key raw (factor info) in
    if (length values =? 0)%nat then
      do! _log_debug ("* " ++ description info ++ ": No values") in
      ret metrics_values
    else if (length values =? 1)%nat then
      let value := nth 0 values None in
      do! _log_debug ("* " ++ description info ++ ": " ++ fmt_value py value
                        ++ unit_if_value info value) in
      match value with
      | Some x => ret (<[name info := PFloat x]> metrics_values)
      | None => ret metrics_values
      end
    else
      do! _log_debug ("* " ++ name info ++ ":") in
      do! log_each info values in
      let values := not_none values in
      if (length values =? 1)%nat then
        ret (<[name info := PFloat (nth 0 values 0%float)]> metrics_values)
      else if (1 <? length values)%nat then
        let! n := lift (float_of_Z (Z.of_nat (length values))) in
        ret (<[name info := PFloat (py_sum values / n)]> metrics_values)
      else ret metrics_values
  else
    do! _log_debug ("* Missing key: " ++ key ++ " - " ++ description info) in
    ret metrics_values.

Fixpoint read_fields (py : runtime) (data : json) (entries : list (string * field_info))
    (metrics_values : gmap string pyval) : M (gmap string pyval) :=
  match entries with
  | [] => ret metrics_values
  | entry :: rest =>
      let! metrics_values := read_field py data entry metrics_values in
      read_fields py data rest metrics_values
  end.

(** [key in FIELD_MAPPING.keys()]: the key is hashed first. *)
Definition known_key (key : json) : result bool :=
  match key with
  | JStr k => Ok (existsb (fun kv => String.eqb k (fst kv)) FIELD_MAPPING)
  | _ => if hashable key then Ok false else Err TypeError
  end.

(** The loop of [_read_data] over the keys of the payload. *)
Fixpoint log_unknown (py : runtime) (data : json) (keys : list json) : M unit :=
  match keys with
  | [] => ret tt
  | key :: rest =>
      let! known := lift (known_key key) in
      do! (if known : bool then ret tt
           else
             let! value := lift (py_getitem data key) in
             _log_debug ("* Unknown key " ++ fmt py key ++ ": " ++ fmt py value)) in
      log_unknown py data rest
  end.

(** ['frequency' not in metrics_values or metrics_values['frequency'] is None] *)
Definition offline (metrics_values : gmap string pyval) : bool :=
  match metrics_values !! "frequency" with
  | None => true
  | Some PNone => true
  | Some _ => false
  end.

(** [_read_data] from the separator line on: the device payload [data] is
    reduced into [metrics_values] (empty so far), which is enqueued. *)
Definition read_payload (py : runtime) (serial : string) (data : json) : M unit :=
  let metrics_values : gmap string pyval := ∅ in
  do! _log_separator in
  let! now := time_asctime py in
  do! _log_debug now in
  let! metrics_values := read_fields py data FIELD_MAPPING metrics_values in
  let! keys := lift (py_iter data) in
  do! log_unknown py data keys in
  let metrics_values :=
    <["online" := PBool (negb (offline metrics_values))]> metrics_values in
  _enqueue_metrics py serial metrics_values.

Definition _read_data (py : runtime) (fuel : nat) (sma_device : device) : M unit :=
  let! response := fetch py fuel sma_device in
  let! has_result := lift (py_in "result" response) in
  let! unexpected :=
    if negb has_result then ret true
    else
      let! result := lift (py_getitem response (JStr "result")) in
      let! n := lift (py_len result) in
      ret (negb (n =? 1)%nat) in
  if unexpected : bool then
    raise (RuntimeError ("Unexpected response: " ++ fmt py response))
  else
    let! result := lift (py_getitem response (JStr "result")) in
    let! keys := lift (py_keys result) in
    let! serial := lift (seq_index keys 0) in
    let! data := lift (py_getitem result (JStr serial)) in
    match data with
    | JNull => raise (RuntimeError ("Unexpected response: " ++ fmt py response))
    | _ => read_payload py serial data
    end.

(** The [for] loop of [run] over [self._sma_devices]. *)
Fixpoint read_devices (py : runtime) (fuel : nat) (devices : list device) : M unit :=
  match devices with
  | [] => ret tt
  | sma_device :: rest =>
      do! try_except (_read_data py fuel sma_device)
            (fun ex =>
               do! logging_exception ex in
               logger ("Could not read SMA device values: " ++ fmt_exn py ex)) in
      read_devices py fuel rest
  end.

(** One turn of the [while True] of [run]. *)
Definition run_cycle (py : runtime) (fuel : nat) (self : plugin) : M unit :=
  do! read_devices py fuel (_sma_devices self) in
  do! _log_separator in
  let! now := time_asctime py in
  do! logger (now ++ " - Sleeping for " ++ fmt py (JInt (_sample_rate self)) ++ " seconds") in
  time_sleep (_sample_rate self).

(** The first [cycles] turns of [run]; the loop itself has no exit. *)
Fixpoint run (py : runtime) (fuel : nat) (self : plugin) (cycles : nat) : M unit :=
  match cycles with
  | O => ret tt
  | S cycles' =>
      do! run_cycle py fuel self in
      run py fuel self cycles'
  end.

End SMAWebConnect.

Import SMAWebConnect.

(** ** Output-only computations

    A computation is output-only when its result does not depend on the
    world and all it does to the world is to add output. *)
Definition writes (lines : list event) (w : world) : world := fold_right emit w lines.

Definition finish {A : Type} (r : result A) (lines : list event) : M A :=
  fun w =>
    match r with
    | Ok a => Ret a (writes lines w)
    | Err e => Raise e (writes lines w)
    end.

Definition output_only {A : Type} (m : M A) : Prop :=
  exists r lines, forall w, m w = finish r lines w.

(** ** What a computation leaves alone *)

(** The device, the clock and the queue are the same in [w'] as in [w], and
    [n] more requests have been sent. *)
Definition after (n : nat) (w w' : world) : Prop :=
  wire w' = wire w /\ wall w' = wall w
  /\ _metrics_queue w' = _metrics_queue w /\ posts w' = n + posts w.

(** ** The readings of a field

    A field of the payload is [{"1": [instance, ...]}], an instance is
    [{"val": v}]. *)
Definition reading (v : json) : json := JObj [("val", v)].

Definition channel (instances : list json) : json := JObj [("1", JArr instances)].

(** The instances of a multi-reading field seen one by one: a container
    without "val" or with a null "val" has no value, any other "val" has the
    value [float(val) / factor]. *)
Inductive scaled (py : runtime) (factor : float) : json -> option float -> Prop :=
| scaled_missing c :
    py_in "val" c = Ok false -> scaled py factor c None
| scaled_null c :
    py_in "val" c = Ok true -> py_getitem c (JStr "val") = Ok JNull ->
    scaled py factor c None
| scaled_value c v x q :
    py_in "val" c = Ok true -> py_getitem c (JStr "val") = Ok v -> v <> JNull ->
    py_float py v = Ok x -> py_div x factor = Ok q ->
    scaled py factor c (Some q).

Definition is_value (c : option float) : bool :=
  match c with Some _ => true | None => false end.

(** A raw reading that is a JSON number. *)
Definition is_number (v : json) : bool :=
  match v with JInt _ | JFloat _ => true | _ => false end.

(** ** The reduction of a payload *)

(** What a call of [_extract_values] returns, in whatever world it runs. *)
Definition extracted (py : runtime) (key : string) (raw : json) (factor : float)
    (values : list (option float)) : Prop :=
  forall w, exists lines,
    _extract_values py key raw factor w = Ret values (writes lines w).

(** The arithmetic mean of [xs], in floats: the sum from left to right,
    divided by the number of values. *)
Definition mean (xs : list float) : float :=
  (py_sum xs / Z_to_float (Z.of_nat (length xs)))%float.

(** The entry of a field with the non-absent values [xs]: none, the value
    itself, or the mean. *)
Definition reduced (xs : list float) : option pyval :=
  match xs with
  | [] => None
  | [x] => Some (PFloat x)
  | _ => Some (PFloat (mean xs))
  end.

(** [metrics_values] holds the reduction of the payload [data]: one entry
    for each field of the catalog that [data] has and that has a value, and
    nothing else. *)
Definition reduction (py : runtime) (data : json) (metrics_values : gmap string pyval)
    : Prop :=
  (forall n,
      (forall key info, In (key, info) FIELD_MAPPING -> name info <> n) ->
      metrics_values !! n = None)
  /\ (forall key info,
        In (key, info) FIELD_MAPPING ->
        (py_in key data = Ok false /\ metrics_values !! name info = None)
        \/ (py_in key data = Ok true
            /\ exists raw values,
                py_getitem data (JStr key) = Ok raw
                /\ extracted py key raw (factor info) values
                /\ metrics_values !! name info = reduced (not_none values))).

(** ** Closed instances

    A runtime, worlds, devices and payloads for statements about concrete
    inputs.  None of these statements depends on what the runtime prints. *)
Definition plain_runtime : runtime :=
  {| repr_of := fun _ => "<repr>";
     float_of_str := fun _ => None;
     exn_text := fun _ => "<exception>";
     asctime := fun _ => "<asctime>" |}.

Definition working_disk : fs :=
  {| content := None; readable := true; writable := true; disk_full := false |}.

(** A freshly started process in front of a device that answers [net]. *)
Definition fresh_world (net : nat -> result json) : world :=
  {| _sma_sid := ∅; _metrics_queue := []; disk := working_disk; wire := net;
     posts := 0; wall := fun _ => 0%float; ticks := 0; trace := [] |}.

Definition unreachable : nat -> result json := fun _ => Err RequestException.

Definition demo_device : device :=
  {| sma_inverter_ip := "https://192.168.0.230"; password := "secret" |}.

Definition demo_plugin : plugin :=
  {| _sample_rate := 30; _sma_devices := [demo_device] |}.

(** A device that reports an expired session, then refuses the login
    because all sessions are taken. *)
Definition sessions_exhausted (n : nat) : result json :=
  match n with
  | 0 => Ok (JObj [("err", JInt 401)])
  | 1 => Ok (JObj [("err", JInt 503)])
  | _ => Err RequestException
  end.

(** A device that reports an expired session, accepts the login and then
    answers the fetch with an empty payload. *)
Definition session_renewed (n : nat) : result json :=
  match n with
  | 0 => Ok (JObj [("err", JInt 401)])
  | 1 => Ok (JObj [("result", JObj [("sid", JStr "s1")])])
  | 2 => Ok (JObj [("result", JObj [("3001234567", JObj [])])])
  | _ => Err RequestException
  end.

(** The world a computation leaves, and the sample it has enqueued last. *)
Definition world_after {A : Type} (o : outcome A) (w : world) : world :=
  match o with
  | Ret _ w' => w'
  | Raise _ w' => w'
  | OutOfFuel => w
  end.

Definition enqueued {A : Type} (o : outcome A) : option sample :=
  match o with
  | Ret _ w' => head (_metrics_queue w')
  | _ => None
  end.

(** A device that answers the first request with one payload. *)
Definition answers (payload : json) (n : nat) : result json :=
  match n with
  | 0 => Ok (JObj [("result", JObj [("3001234567", payload)])])
  | _ => Err RequestException
  end.

(** Payloads: three channels of grid power, the second without a reading;
    a frequency without a reading; two channels of grid power that both
    read the largest binary64. *)
Definition three_channels : json :=
  JObj [("6100_40263F00", channel [reading (JInt 100); reading JNull; reading (JInt 300)])].

Definition null_frequency : json :=
  JObj [("6100_00465700", channel [reading JNull])].

Definition largest : float := 0x1.fffffffffffffp+1023%float.

Definition two_largest : json :=
  JObj [("6100_40263F00", channel [reading (JFloat largest); reading (JFloat largest)])].

(** ** What a cycle leaves alone

    [keeps R m]: whether [m] returns or raises, the world it leaves is
    related by [R] to the world it started in. *)
Definition keeps {A : Type} (R : world -> world -> Prop) (m : M A) : Prop :=
  forall w,
    match m w with
    | Ret _ w' => R w w'
    | Raise _ w' => R w w'
    | OutOfFuel => True
    end.

Definition is_sleep (e : event) : bool :=
  match e with Slept _ => true | _ => false end.

(** The number of times the process has slept. *)
Definition sleeps (w : world) : nat := length (List.filter is_sleep (trace w)).

(** The queue, the device, the clock and its readings so far, and the number
    of sleeps are the same. *)
Definition steady (w w' : world) : Prop :=
  _metrics_queue w' = _metrics_queue w /\ wire w' = wire w
  /\ wall w' = wall w /\ ticks w' = ticks w /\ sleeps w' = sleeps w.

(** [{"result": {"sid": sid}}], the answer to an accepted login. *)
Definition accepted (sid : json) : json :=
  JObj [("result", JObj [("sid", sid)])].

(** [{"err": 401}], the answer to a request with an expired session. *)
Definition expired : json := JObj [("err", JInt 401)].

(** A device whose sessions expire at once: every fetch is answered with
    the error code 401, every login is accepted. *)
Definition revolving (n : nat) : result json :=
  if Nat.even n then Ok expired else Ok (accepted (JStr "s")).

(** A device that answers an expired session, accepts the login with the
    token "fresh" and then answers the fetch with a payload. *)
Definition renews_then_answers (payload : json) (n : nat) : result json :=
  match n with
  | 0 => Ok expired
  | 1 => Ok (accepted (JStr "fresh"))
  | 2 => Ok (JObj [("result", JObj [("3001234567", payload)])])
  | _ => Err RequestException
  end.

(** A process whose session file cannot be opened for writing. *)
Definition readonly_world : world :=
  {| _sma_sid := ∅; _metrics_queue := [];
     disk := {| content := Some (Parses (JObj [("sid", JStr "old")])); readable := true;
                writable := false; disk_full := false |};
     wire := unreachable; posts := 0; wall := fun _ => 0%float; ticks := 0; trace := [] |}.

(** [batch], enqueued one after the other. *)
Fixpoint enqueue_each (py : runtime) (batch : list (string * gmap string pyval)) : M unit :=
  match batch with
  | [] => ret tt
  | (device_id, values) :: rest =>
      do! _enqueue_metrics py device_id values in
      enqueue_each py rest
  end.

(** The device and the values a sample was enqueued with. *)
Definition enqueued_with (s : sample) : string * gmap string pyval :=
  (tags_device s, sample_values s).

(** A payload in which the frequency reads a list of tags, not a number. *)
Definition tagged_frequency : json :=
  JObj [("6100_00465700", channel [reading (JArr [JObj [("tag", JInt 303)]])])].

(** ** [metric_definitions]

    The class attribute that declares the metrics to the consumer: one
    group of type 'sma', tagged by 'device', with "online" and one metric
    for each value of [FIELD_MAPPING]. *)
Record metric_definition : Type := {
  metric_name : string;
  metric_description : string;
  metric_type : string;
  metric_unit : string
}.

Record definition_group : Type := {
  group_type : string;
  group_tags : list string;
  group_metrics : list metric_definition
}.

Definition metric_definitions : list definition_group :=
  [ {| group_type := "sma";
       group_tags := ["device"];
       group_metrics :=
         {| metric_name := "online";
            metric_description := "Indicates if the SMA device is operating";
            metric_type := "gauge"; metric_unit := "Boolean" |}
         :: map (fun entry =>
                   {| metric_name := name (snd entry);
                      metric_description := description (snd entry);
                      metric_type := type_ (snd entry);
                      metric_unit := unit_ (snd entry) |})
              FIELD_MAPPING |} ].

(** ** Payloads as a device sends them

    A raw reading is null or a number that [float] converts; a field is a
    channel list of at most 1000 such readings. *)
Definition plain_reading (py : runtime) (v : json) : Prop :=
  v = JNull \/ (is_number v = true /\ exists x, py_float py v = Ok x).

Definition plain_field (py : runtime) (raw : json) : Prop :=
  exists vs,
    raw = channel (map reading vs)
    /\ Forall (plain_reading py) vs
    /\ length vs <= 1000.

(** * Properties *)

(** ** Floats *)

Lemma positive_not_zero (f : float) : (0 <? f)%float = true -> (f =? 0)%float = false.
Proof.
  rewrite ltb_spec, FloatAxioms.eqb_spec.
  unfold SFltb, SFeqb.
  change (Prim2SF 0) with (S754_zero false).
  destruct (Prim2SF f) as [s | s | | s m e]; simpl; try discriminate;
    destruct s; simpl; intros; try discriminate; reflexivity.
Qed.

Lemma py_div_positive (x f : float) :
  (0 <? f)%float = true -> py_div x f = Ok (x / f)%float.
Proof.
  intros Hf. unfold py_div. now rewrite (positive_not_zero f Hf).
Qed.

(** ** Sequencing *)

Section Sequencing.
Context {A B : Type}.

Lemma bind_ret_inv (m : M A) (k : A -> M B) w b w' :
  bind m k w = Ret b w' -> exists a w1, m w = Ret a w1 /\ k a w1 = Ret b w'.
Proof.
  unfold bind. destruct (m w) as [a w1 | e w1 | ]; try discriminate. eauto.
Qed.

Lemma lift_ret_inv (r : result A) w a w' :
  lift r w = Ret a w' -> r = Ok a /\ w' = w.
Proof.
  unfold lift. destruct r; intros H; inversion H; auto.
Qed.

End Sequencing.

(** ** Output-only computations *)

Lemma writes_app l1 l2 w : writes (l1 ++ l2)%list w = writes l1 (writes l2 w).
Proof. unfold writes. apply fold_right_app. Qed.

Lemma after_refl w : after 0 w w.
Proof. repeat split. Qed.

Lemma after_trans n1 n2 w1 w2 w3 :
  after n1 w1 w2 -> after n2 w2 w3 -> after (n2 + n1) w1 w3.
Proof.
  intros (H1 & H2 & H3 & H4) (K1 & K2 & K3 & K4).
  repeat split; try congruence. rewrite K4, H4. lia.
Qed.

Lemma after_writes lines w : after 0 w (writes lines w).
Proof.
  induction lines as [|e lines IH]; [ apply after_refl | exact IH ].
Qed.

Lemma wire_writes lines w : wire (writes lines w) = wire w.
Proof. apply after_writes. Qed.

Lemma posts_writes lines w : posts (writes lines w) = posts w.
Proof. apply after_writes. Qed.

Lemma queue_writes lines w : _metrics_queue (writes lines w) = _metrics_queue w.
Proof. apply after_writes. Qed.

Section Output.
Context {A B : Type}.

Lemma finish_ret_inv (r : result A) lines w a w' :
  finish r lines w = Ret a w' -> r = Ok a /\ w' = writes lines w.
Proof.
  unfold finish. destruct r; intros H; inversion H; auto.
Qed.

Lemma output_only_ret (a : A) : output_only (ret a).
Proof. exists (Ok a), []. reflexivity. Qed.

Lemma output_only_raise (e : exn) : output_only (@raise A e).
Proof. exists (Err e), []. reflexivity. Qed.

Lemma output_only_lift (r : result A) : output_only (lift r).
Proof. exists r, []. intros w. destruct r; reflexivity. Qed.

Lemma output_only_if (b : bool) (m1 m2 : M A) :
  output_only m1 -> output_only m2 -> output_only (if b then m1 else m2).
Proof. now destruct b. Qed.

Lemma output_only_bind (m : M A) (k : A -> M B) :
  output_only m -> (forall a, output_only (k a)) -> output_only (bind m k).
Proof.
  intros (r & lines & Hm) Hk. destruct r as [a | e].
  - destruct (Hk a) as (r' & lines' & Hka).
    exists r', (lines' ++ lines)%list. intros w.
    unfold bind. rewrite Hm. simpl. rewrite Hka.
    unfold finish. now rewrite writes_app.
  - exists (Err e), lines. intros w. unfold bind. now rewrite Hm.
Qed.

(** What an output-only computation returns in one world it returns in
    every world. *)
Lemma output_only_ret_inv (m : M A) w a w' :
  output_only m -> m w = Ret a w' ->
  (exists lines, w' = writes lines w)
  /\ forall w0, exists lines, m w0 = Ret a (writes lines w0).
Proof.
  intros (r & lines & Hm) H. rewrite Hm in H.
  apply finish_ret_inv in H as [-> ->].
  split; [ eauto | ]. intros w0. exists lines. apply Hm.
Qed.

End Output.

Lemma output_only_logger line : output_only (logger line).
Proof. exists (Ok tt), [Logged line]. reflexivity. Qed.

Create HintDb frame.
#[local] Hint Resolve output_only_ret output_only_raise output_only_lift
  output_only_logger output_only_if : frame.

Ltac frame_step :=
  first [ apply output_only_bind; [ | intros ? ] | solve [ auto with frame ] ].

(** ** Extraction *)

Section Extraction.
Variables (py : runtime) (key : string) (factor : float).

Lemma output_only_clean_value c : output_only (_clean_value py key c factor).
Proof.
  unfold _clean_value.
  apply output_only_bind; [ auto with frame | intros has_val ].
  destruct has_val; simpl.
  - apply output_only_bind; [ auto with frame | intros value ].
    destruct value; repeat frame_step.
  - repeat frame_step.
Qed.

Lemma output_only_clean_each raws :
  forall acc, output_only (clean_each py key factor raws acc).
Proof.
  induction raws as [|raw raws IH]; intros acc; simpl.
  - auto with frame.
  - apply output_only_bind; [ apply output_only_clean_value | intros [x|] ]; apply IH.
Qed.

Lemma output_only_extract_values values :
  output_only (_extract_values py key values factor).
Proof.
  unfold _extract_values.
  apply output_only_bind; [ auto with frame | intros n ].
  apply output_only_bind.
  { destruct (negb (n =? 1)%nat); repeat frame_step. }
  intros [|]; [ repeat frame_step | ].
  apply output_only_bind; [ auto with frame | intros vs ].
  apply output_only_bind; [ auto with frame | intros k ].
  destruct (k =? 0)%nat; [ auto with frame | ].
  destruct (k =? 1)%nat.
  - apply output_only_bind; [ auto with frame | intros first ].
    apply output_only_bind; [ apply output_only_clean_value | intros v; auto with frame ].
  - apply output_only_bind; [ auto with frame | intros raws ].
    apply output_only_clean_each.
Qed.

Lemma clean_value_scaled c o :
  scaled py factor c o ->
  forall w, exists lines, _clean_value py key c factor w = Ret o (writes lines w).
Proof.
  intros H w. unfold _clean_value, bind, lift.
  destruct H as [c Hin | c Hin Hget | c v x q Hin Hget Hv Hx Hq]; rewrite Hin; simpl.
  - eexists [_]. reflexivity.
  - rewrite Hget. exists []. reflexivity.
  - rewrite Hget. exists [].
    destruct v; try congruence; rewrite Hx, Hq; reflexivity.
Qed.

Lemma clean_each_scaled instances cs :
  Forall2 (scaled py factor) instances cs ->
  forall acc w, exists lines,
    clean_each py key factor instances acc w
    = Ret (acc ++ filter is_value cs)%list (writes lines w).
Proof.
  induction 1 as [|c o instances cs Hc _ IH]; intros acc w; simpl.
  - exists []. now rewrite app_nil_r.
  - destruct (clean_value_scaled c o Hc w) as [l1 H1].
    unfold bind. rewrite H1.
    destruct o as [q|]; simpl.
    + destruct (IH (acc ++ [Some q])%list (writes l1 w)) as [l2 H2].
      exists (l2 ++ l1)%list. rewrite H2, writes_app, <- app_assoc. reflexivity.
    + destruct (IH acc (writes l1 w)) as [l2 H2].
      exists (l2 ++ l1)%list. rewrite H2, writes_app. reflexivity.
Qed.

End Extraction.

(** C6: for a scale factor [f > 0] and a numeric raw reading [v], the
    extraction of a single-reading field returns the one value
    [float(v) / f]; for a null raw reading it returns the one entry [None],
    which is not the float 0. *)
Theorem extract_single_reading py key (f : float) (c : list (string * json)) w :
  (0 <? f)%float = true ->
  (forall v x,
      dict_get "val" c = Some v -> is_number v = true -> py_float py v = Ok x ->
      _extract_values py key (channel [JObj c]) f w = Ret [Some (x / f)%float] w) /\
  (dict_get "val" c = Some JNull ->
     _extract_values py key (channel [JObj c]) f w = Ret [None] w
     /\ @None float <> Some 0%float).
Proof.
  intros Hf. split.
  - intros v x Hc Hv Hx.
    unfold _extract_values, _clean_value, channel, bind, lift, ret; simpl.
    unfold dict_has. rewrite Hc; simpl.
    destruct v; try discriminate Hv; rewrite Hx, (py_div_positive _ _ Hf); reflexivity.
  - intros Hc. split; [ | discriminate ].
    unfold _extract_values, _clean_value, channel, bind, lift, ret; simpl.
    unfold dict_has. rewrite Hc; reflexivity.
Qed.

Lemma extract_single_reading_witness :
  _extract_values plain_runtime "6100_00465700" (channel [reading (JInt 5000)]) 100
    (fresh_world unreachable)
  = Ret [Some 50%float] (fresh_world unreachable).
Proof.
  refine (proj1 (extract_single_reading plain_runtime "6100_00465700" 100
                   [("val", JInt 5000)] (fresh_world unreachable) _)
            (JInt 5000) 5000%float _ _ _); reflexivity.
Defined.

(** C1, as the code has it: for a multi-reading field (two or more channel
    instances under "1"), the extraction returns the scaled values of the
    instances that have a reading, in the order of the device; an instance
    whose raw reading is null has no entry in the result. *)
Theorem extract_multi_reading py key factor (instances : list json)
    (cs : list (option float)) :
  2 <= length instances ->
  Forall2 (scaled py factor) instances cs ->
  forall w, exists lines,
    _extract_values py key (channel instances) factor w
    = Ret (filter is_value cs) (writes lines w).
Proof.
  intros Hlen Hcs w.
  unfold _extract_values, channel, bind, lift, ret; simpl.
  destruct instances as [|i1 [|i2 rest]]; simpl in Hlen; try lia.
  simpl. apply (clean_each_scaled py key factor _ _ Hcs []).
Qed.

Lemma extract_multi_reading_witness :
  exists lines,
    _extract_values plain_runtime "6380_40451F00"
      (channel [reading (JInt 100); reading JNull; reading (JInt 300)]) 1
      (fresh_world unreachable)
    = Ret [Some 100%float; Some 300%float] (writes lines (fresh_world unreachable)).
Proof.
  refine (extract_multi_reading plain_runtime "6380_40451F00" 1
            [reading (JInt 100); reading JNull; reading (JInt 300)]
            [Some 100%float; None; Some 300%float] _ _ (fresh_world unreachable)).
  - simpl. lia.
  - apply List.Forall2_cons;
      [ | apply List.Forall2_cons; [ | apply List.Forall2_cons; [ | apply List.Forall2_nil ] ] ].
    + eapply (scaled_value _ _ _ (JInt 100) 100%float); try reflexivity; discriminate.
    + apply scaled_null; reflexivity.
    + eapply (scaled_value _ _ _ (JInt 300) 300%float); try reflexivity; discriminate.
Defined.

(** C1 fails as stated: three instances, the second null, give two values,
    not three with [None] in the middle. *)
Lemma extract_multi_reading_drops_null :
  _extract_values plain_runtime "6380_40451F00"
    (channel [reading (JInt 100); reading JNull; reading (JInt 300)]) 1
    (fresh_world unreachable)
  = Ret [Some 100%float; Some 300%float] (fresh_world unreachable)
  /\ ~ (exists values w',
          _extract_values plain_runtime "6380_40451F00"
            (channel [reading (JInt 100); reading JNull; reading (JInt 300)]) 1
            (fresh_world unreachable)
          = Ret values w'
          /\ length values = 3 /\ nth_error values 1 = Some None).
Proof.
  split; [ reflexivity | ].
  intros (values & w' & H & Hlen & _).
  vm_compute in H. injection H as <- _. discriminate Hlen.
Qed.

(** ** The metrics queue *)

Lemma set_queue_same w : set_queue (_metrics_queue w) w = w.
Proof. destruct w; reflexivity. Qed.

Lemma enqueue_metrics_appendleft py device_id values w :
  _enqueue_metrics py device_id values w
  = Ret tt (set_queue ({| sample_type := "sma"; timestamp := wall w (ticks w);
                          tags_device := device_id; sample_values := values |}
                       :: _metrics_queue w) (tick w)).
Proof. reflexivity. Qed.

Lemma deque_pop_right q s w :
  _metrics_queue w = (q ++ [s])%list -> deque_pop w = Ret s (set_queue q w).
Proof.
  intros Hq. unfold deque_pop. rewrite Hq.
  destruct q as [|s0 q]; [ reflexivity | ].
  cbn [app]. rewrite last_last.
  change (s0 :: (q ++ [s])%list) with ((s0 :: q) ++ [s])%list.
  rewrite removelast_last. reflexivity.
Qed.

(** A consumer that iterates the generator to its end gets the queue from
    its right end to its left end, and leaves it empty. *)
Lemma collect_metrics_all (arrived : list sample) :
  forall fuel w,
    length arrived < fuel ->
    _metrics_queue w = rev arrived ->
    collect_metrics fuel w = Ret arrived (set_queue [] w).
Proof.
  induction arrived as [|s arrived IH]; intros fuel w Hfuel Hq;
    (destruct fuel as [|fuel]; [ simpl in Hfuel; lia | ]); simpl in Hq |- *.
  - unfold bind, collect_metrics_next, try_except, bind, deque_pop. rewrite Hq.
    simpl. unfold ret. now rewrite <- Hq, set_queue_same.
  - unfold bind at 1. unfold collect_metrics_next, try_except, bind.
    rewrite (deque_pop_right _ _ _ Hq). unfold ret at 1.
    rewrite (IH fuel (set_queue (rev arrived) w)); [ reflexivity | simpl in Hfuel; lia | reflexivity ].
Qed.

(** C5: three samples enqueued in the order P1, P2, P3 into an empty queue,
    with no drain in between, come out of a full drain as [P1; P2; P3]; the
    drain leaves the queue empty, and a second drain yields nothing. *)
Theorem drain_in_arrival_order py d1 v1 d2 v2 d3 v3 w :
  _metrics_queue w = [] ->
  let p1 := {| sample_type := "sma"; timestamp := wall w (ticks w);
               tags_device := d1; sample_values := v1 |} in
  let p2 := {| sample_type := "sma"; timestamp := wall w (1 + ticks w);
               tags_device := d2; sample_values := v2 |} in
  let p3 := {| sample_type := "sma"; timestamp := wall w (2 + ticks w);
               tags_device := d3; sample_values := v3 |} in
  exists w3,
    (do! _enqueue_metrics py d1 v1 in
     do! _enqueue_metrics py d2 v2 in
     _enqueue_metrics py d3 v3) w = Ret tt w3
    /\ forall fuel, 3 < fuel ->
         exists w4,
           collect_metrics fuel w3 = Ret [p1; p2; p3] w4
           /\ _metrics_queue w4 = []
           /\ forall fuel', 0 < fuel' -> collect_metrics fuel' w4 = Ret [] w4.
Proof.
  intros Hq p1 p2 p3.
  eexists. split.
  { unfold bind. rewrite !enqueue_metrics_appendleft. reflexivity. }
  intros fuel Hfuel. eexists. split; [ | split ].
  - apply collect_metrics_all; [ simpl; lia | simpl; now rewrite Hq ].
  - reflexivity.
  - intros fuel' Hfuel'.
    rewrite (collect_metrics_all [] fuel'); [ reflexivity | simpl; lia | reflexivity ].
Qed.

Lemma drain_in_arrival_order_witness :
  exists w3,
    (do! _enqueue_metrics plain_runtime "A" ∅ in
     do! _enqueue_metrics plain_runtime "B" ∅ in
     _enqueue_metrics plain_runtime "C" ∅) (fresh_world unreachable) = Ret tt w3
    /\ forall fuel, 3 < fuel ->
         exists w4,
           collect_metrics fuel w3
           = Ret [ {| sample_type := "sma"; timestamp := 0; tags_device := "A";
                      sample_values := ∅ |};
                   {| sample_type := "sma"; timestamp := 0; tags_device := "B";
                      sample_values := ∅ |};
                   {| sample_type := "sma"; timestamp := 0; tags_device := "C";
                      sample_values := ∅ |} ] w4
           /\ _metrics_queue w4 = []
           /\ forall fuel', 0 < fuel' -> collect_metrics fuel' w4 = Ret [] w4.
Proof.
  apply (drain_in_arrival_order plain_runtime "A" ∅ "B" ∅ "C" ∅ (fresh_world unreachable)).
  reflexivity.
Defined.

(** ** The session store *)

(** [get] returns in every world, and leaves the plugin and the device as
    they are. *)
Lemma get_returns w : exists v w', SIDPersister.get w = Ret v w' /\ after 0 w w'.
Proof.
  unfold SIDPersister.get, SIDPersister.get_body, try_except, bind,
    SIDPersister.open_read, lift, logging_exception, logger, ret.
  destruct (content (disk w)) as [t|];
    [ | eexists _, _; split; [ reflexivity | repeat split ] ].
  destruct (readable (disk w));
    [ | eexists _, _; split; [ reflexivity | repeat split ] ].
  destruct (SIDPersister.json_load t) as [doc|];
    [ | eexists _, _; split; [ reflexivity | repeat split ] ].
  destruct (py_getitem doc (JStr "sid"));
    eexists _, _; (split; [ reflexivity | repeat split ]).
Qed.

(** [save] returns in every world, written or not. *)
Lemma save_after sid w :
  exists w', SIDPersister.save sid w = Ret tt w' /\ after 0 w w'.
Proof.
  unfold SIDPersister.save, SIDPersister.save_body, try_except, bind,
    SIDPersister.open_write, SIDPersister.json_dump.
  destruct (writable (disk w)) eqn:Hw; simpl.
  - destruct (disk_full (disk w)) eqn:Hf; simpl; eexists; split;
      try reflexivity; repeat split.
  - eexists; split; [ reflexivity | repeat split ].
Qed.

(** C9: on a session file that can be written and read, [save x] followed
    by [get] returns [x]; and [get] never raises: it returns, and whatever
    exception its body raises (no file, no permission, text that does not
    parse, no "sid") is logged and the result is [None]. *)
Theorem session_store_roundtrip (x : json) (w : world) :
  (writable (disk w) = true -> disk_full (disk w) = false ->
   readable (disk w) = true ->
   exists w1 w2,
     SIDPersister.save x w = Ret tt w1 /\ SIDPersister.get w1 = Ret x w2)
  /\ (exists v w', SIDPersister.get w = Ret v w')
  /\ (forall e w',
        SIDPersister.get_body w = Raise e w' ->
        SIDPersister.get w = Ret JNull (emit (ExceptionLogged e) w')).
Proof.
  split; [ | split ].
  - intros Hw Hfull Hr.
    eexists _, _. split.
    + unfold SIDPersister.save, SIDPersister.save_body, try_except, bind,
        SIDPersister.open_write, SIDPersister.json_dump.
      rewrite Hw. simpl. rewrite Hfull. reflexivity.
    + unfold SIDPersister.get, SIDPersister.get_body, try_except, bind,
        SIDPersister.open_read.
      simpl. rewrite Hr. reflexivity.
  - destruct (get_returns w) as (v & w' & Hget & _). eauto.
  - intros e w' Hbody. unfold SIDPersister.get, try_except. rewrite Hbody. reflexivity.
Qed.

Lemma session_store_roundtrip_witness :
  exists w1 w2,
    SIDPersister.save (JStr "abc") (fresh_world unreachable) = Ret tt w1
    /\ SIDPersister.get w1 = Ret (JStr "abc") w2.
Proof.
  apply (proj1 (session_store_roundtrip (JStr "abc") (fresh_world unreachable)));
    reflexivity.
Defined.

(** The constructor returns in every world, with an empty queue, the sample
    rate 30 and the one device it was given. *)
Lemma init_returns device_ip device_password w :
  exists self w',
    __init__ device_ip device_password w = Ret self w'
    /\ _metrics_queue w' = []
    /\ _sample_rate self = 30%Z
    /\ _sma_devices self
       = [ {| sma_inverter_ip := "https://" ++ device_ip; password := device_password |} ].
Proof.
  unfold __init__. unfold bind at 1. unfold bind at 1.
  destruct (get_returns (set_queue [] w)) as (v & w1 & Hget & (_ & _ & Hq & _)).
  rewrite Hget. eexists _, _. split; [ reflexivity | ].
  split; [ exact Hq | split; reflexivity ].
Qed.

(** ** Login and the request loop *)

Lemma login_returns py dev w w' :
  _login py dev w = Ret tt w' -> after 1 w w'.
Proof.
  unfold _login. intros H.
  apply bind_ret_inv in H as (u & w1 & Hlog & H).
  unfold logger in Hlog. injection Hlog as _ <-.
  apply bind_ret_inv in H as (response & w2 & Hpost & H).
  assert (Hw2 : after 1 w w2).
  { unfold post in Hpost.
    destruct (wire _ _); inversion Hpost; subst. repeat split. }
  clear Hpost.
  apply bind_ret_inv in H as (has_result & w3 & Hin & H).
  apply lift_ret_inv in Hin as [Hin ->].
  apply bind_ret_inv in H as (has_sid & w3 & Hsid & H).
  assert (w3 = w2) as ->.
  { destruct has_result.
    - apply bind_ret_inv in Hsid as (result & w4 & Hres & Hsid).
      apply lift_ret_inv in Hres as [_ ->].
      now apply lift_ret_inv in Hsid as [_ ->].
    - now injection Hsid. }
  destruct has_sid.
  - apply bind_ret_inv in H as (result & w4 & Hres & H).
    apply lift_ret_inv in Hres as [_ ->].
    apply bind_ret_inv in H as (sid & w4 & Hget & H).
    apply lift_ret_inv in Hget as [_ ->].
    apply bind_ret_inv in H as (u' & w4 & Hset & H).
    injection Hset as _ <-.
    destruct (save_after sid (set_sid (sma_inverter_ip dev) sid w2)) as (w5 & Hs & Hafter).
    rewrite Hs in H. injection H as <-.
    change 1 with (0 + 1). eapply after_trans; [ exact Hw2 | ].
    destruct Hafter as (K1 & K2 & K3 & K4). repeat split; assumption.
  - apply bind_ret_inv in H as (code & w4 & Hcode & H).
    apply lift_ret_inv in Hcode as [_ ->].
    destruct (py_eq_int code 503); discriminate.
Qed.

(** The request loop returns the answer to the last request sent, an
    object whose "err" is not 401. *)
Lemma fetch_returns py dev :
  forall fuel w response w',
    fetch py fuel dev w = Ret response w' ->
    exists n resp,
      response = JObj resp
      /\ after (S n) w w'
      /\ wire w (n + posts w) = Ok response
      /\ py_eq_int (default JNull (dict_get "err" resp)) 401 = false.
Proof.
  induction fuel as [|fuel IH]; intros w response w' H; [ discriminate | ].
  simpl in H.
  apply bind_ret_inv in H as (sid & w1 & Hsid & H).
  injection Hsid as _ <-.
  apply bind_ret_inv in H as (r & w2 & Hpost & H).
  assert (Hw2 : after 1 w w2 /\ wire w (posts w) = Ok r).
  { unfold post in Hpost.
    destruct (wire w (posts w)); inversion Hpost; subst. repeat split. }
  destruct Hw2 as [Hw2 Hr]. clear Hpost.
  apply bind_ret_inv in H as (err & w3 & Herr & H).
  apply lift_ret_inv in Herr as [Herr ->].
  destruct (py_eq_int err 401) eqn:H401.
  - apply bind_ret_inv in H as (u & w3 & Hlogin & H).
    destruct u. apply login_returns in Hlogin.
    apply IH in H as (n & resp & Hresp & Hafter & Hwire & Hcode).
    exists (S (S n)), resp. split; [ exact Hresp | split; [ | split ] ].
    + pose proof (after_trans _ _ _ _ _ (after_trans _ _ _ _ _ Hw2 Hlogin) Hafter) as Ha.
      replace (S (S (S n))) with (S n + (1 + 1)) by lia. exact Ha.
    + destruct Hw2 as (W1 & _ & _ & P1), Hlogin as (W2 & _ & _ & P2).
      rewrite <- Hwire, W2, W1, P2, P1. f_equal. lia.
    + exact Hcode.
  - injection H as <- <-.
    destruct r as [ | | | | | | resp]; try discriminate Herr.
    exists 0, resp. split; [ reflexivity | split; [ exact Hw2 | split; [ exact Hr | ] ] ].
    simpl in Herr. injection Herr as <-.
    destruct (dict_get "err" resp); exact H401.
Qed.
Lemma fetch_first py fuel dev w r :
  wire w (posts w) = Ok (JObj r) ->
  py_eq_int (default JNull (dict_get "err" r)) 401 = false ->
  fetch py (S fuel) dev w
  = Ret (JObj r)
      (sent (values_endpoint py (sma_inverter_ip dev) (current_sid (sma_inverter_ip dev) w))
         values_json w).
Proof.
  intros Hw H401. cbn [fetch]. unfold bind at 1. unfold bind at 1. unfold post.
  rewrite Hw. unfold bind, lift, py_get.
  assert (E : py_eq_int match dict_get "err" r with Some x => x | None => JNull end 401 = false).
  { destruct (dict_get "err" r); exact H401. }
  rewrite E. reflexivity.
Qed.

Lemma login_max_sessions py dev w :
  wire w (posts w) = Ok (JObj [("err", JInt 503)]) ->
  _login py dev w
  = Raise (RuntimeError "Maximum amount of sessions")
      (sent (login_endpoint (sma_inverter_ip dev)) (login_json dev)
         (emit (Logged "Doing new login") w)).
Proof.
  intros Hw. unfold _login, bind, logger, post. simpl. rewrite Hw. reflexivity.
Qed.

Lemma login_rejected py dev w code :
  wire w (posts w) = Ok (JObj [("err", code)]) ->
  py_eq_int code 503 = false ->
  _login py dev w
  = Raise (RuntimeError ("Could not login: " ++ fmt py code))
      (sent (login_endpoint (sma_inverter_ip dev)) (login_json dev)
         (emit (Logged "Doing new login") w)).
Proof.
  intros Hw Hc. unfold _login, bind, logger, post. simpl. rewrite Hw. simpl.
  unfold raise. rewrite Hc. reflexivity.
Qed.

(** C7: when the fetch is answered with the error code 401 and the login
    that follows with [{"err": 503}], the login raises the error of the
    maximum of sessions, whose message no generic login failure has (that
    one carries the code of the device), and [_read_data] raises it in turn
    after exactly these two requests: there is no further fetch in the
    cycle. *)
Theorem max_sessions_aborts_cycle py fuel dev w r :
  wire w (posts w) = Ok (JObj r) ->
  py_eq_int (default JNull (dict_get "err" r)) 401 = true ->
  wire w (S (posts w)) = Ok (JObj [("err", JInt 503)]) ->
  let ip := sma_inverter_ip dev in
  let w1 := sent (values_endpoint py ip (current_sid ip w)) values_json w in
  let w2 := sent (login_endpoint ip) (login_json dev) (emit (Logged "Doing new login") w1) in
  _login py dev w1 = Raise (RuntimeError "Maximum amount of sessions") w2
  /\ _read_data py (S fuel) dev w = Raise (RuntimeError "Maximum amount of sessions") w2
  /\ posts w2 = 2 + posts w
  /\ _metrics_queue w2 = _metrics_queue w
  /\ (forall code w0,
        wire w0 (posts w0) = Ok (JObj [("err", code)]) ->
        py_eq_int code 503 = false ->
        exists w0',
          _login py dev w0 = Raise (RuntimeError ("Could not login: " ++ fmt py code)) w0'
          /\ RuntimeError ("Could not login: " ++ fmt py code)
             <> RuntimeError "Maximum amount of sessions").
Proof.
  intros Hfetch H401 Hlogin ip w1 w2.
  assert (L : _login py dev w1 = Raise (RuntimeError "Maximum amount of sessions") w2).
  { apply login_max_sessions. exact Hlogin. }
  split; [ exact L | split; [ | split; [ reflexivity | split; [ reflexivity | ] ] ] ].
  - unfold _read_data. unfold bind at 1. cbn [fetch].
    unfold bind at 1. unfold bind at 1. unfold post. rewrite Hfetch.
    unfold bind at 1. unfold lift, py_get.
    assert (E : py_eq_int match dict_get "err" r with Some x => x | None => JNull end 401 = true).
    { destruct (dict_get "err" r); exact H401. }
    rewrite E. unfold bind at 1. fold ip. fold w1. rewrite L. reflexivity.
  - intros code w0 Hw0 Hcode. eexists. split.
    + apply login_rejected; assumption.
    + intros Heq. injection Heq as Heq. discriminate Heq.
Qed.

Lemma max_sessions_aborts_cycle_witness :
  exists w2,
    _read_data plain_runtime 1 demo_device (fresh_world sessions_exhausted)
    = Raise (RuntimeError "Maximum amount of sessions") w2
    /\ posts w2 = 2.
Proof.
  pose proof (max_sessions_aborts_cycle plain_runtime 0 demo_device
                (fresh_world sessions_exhausted) [("err", JInt 401)]
                eq_refl eq_refl eq_refl) as (_ & H & Hposts & _).
  eexists. split; [ exact H | exact Hposts ].
Defined.

(** ** The shape of the response *)

(** C8, as the code has it: a fetch response that does not carry the error
    code 401 and that has no "result", or whose "result" has a number of
    device keys other than one, or whose one device has a null payload,
    makes the cycle fail with [RuntimeError('Unexpected response: ...')],
    and nothing is enqueued. *)
Theorem unexpected_response_fails py fuel dev w r :
  wire w (posts w) = Ok (JObj r) ->
  py_eq_int (default JNull (dict_get "err" r)) 401 = false ->
  dict_get "result" r = None
  \/ (exists devices, dict_get "result" r = Some (JObj devices) /\ length devices <> 1)
  \/ (exists serial, dict_get "result" r = Some (JObj [(serial, JNull)])) ->
  exists w',
    _read_data py (S fuel) dev w
    = Raise (RuntimeError ("Unexpected response: " ++ fmt py (JObj r))) w'
    /\ _metrics_queue w' = _metrics_queue w
    /\ posts w' = 1 + posts w.
Proof.
  intros Hw H401 Hshape.
  eexists. split; [ | split ].
  - unfold _read_data. unfold bind at 1.
    rewrite (fetch_first py fuel dev w r Hw H401).
    unfold bind at 1. unfold lift at 1. unfold py_in, dict_has.
    destruct Hshape as [Hnone | [(devices & Hres & Hlen) | (serial & Hres)]].
    + rewrite Hnone. reflexivity.
    + rewrite Hres. cbn [negb]. unfold bind at 1. unfold bind at 1.
      unfold lift at 1. unfold py_getitem. rewrite Hres.
      unfold bind at 1. unfold lift at 1. unfold py_len. unfold ret.
      destruct (Nat.eqb_spec (length devices) 1) as [E|E]; [ contradiction | ].
      reflexivity.
    + rewrite Hres. cbn [negb]. unfold bind, lift, py_getitem. rewrite Hres.
      simpl. rewrite String.eqb_refl. reflexivity.
  - reflexivity.
  - reflexivity.
Qed.

Lemma unexpected_response_fails_witness :
  exists w',
    _read_data plain_runtime 1 demo_device
      (fresh_world (fun _ => Ok (JObj [("result", JObj [])])))
    = Raise (RuntimeError "Unexpected response: <repr>") w'
    /\ _metrics_queue w' = []
    /\ posts w' = 1.
Proof.
  apply (unexpected_response_fails plain_runtime 0 demo_device
           (fresh_world (fun _ => Ok (JObj [("result", JObj [])])))
           [("result", JObj [])] eq_refl eq_refl).
  right; left. exists []. split; [ reflexivity | discriminate ].
Defined.

(** C8 fails as stated: the response [{"err": 401}] has no "result", and the
    cycle goes on to log in, fetch again and enqueue a sample. *)
Lemma expired_session_is_not_an_anomaly :
  wire (fresh_world session_renewed) (posts (fresh_world session_renewed))
  = Ok (JObj [("err", JInt 401)])
  /\ dict_get "result" [("err", JInt 401)] = None
  /\ exists w',
       _read_data plain_runtime 2 demo_device (fresh_world session_renewed) = Ret tt w'
       /\ length (_metrics_queue w') = 1.
Proof.
  split; [ reflexivity | split; [ reflexivity | ] ].
  eexists. split; [ vm_compute; reflexivity | reflexivity ].
Qed.

(** ** The polling loop *)

Lemma read_devices_never_raises py fuel devices :
  forall w e w', read_devices py fuel devices w <> Raise e w'.
Proof.
  induction devices as [|dev devices IH]; intros w e w'; simpl.
  - discriminate.
  - unfold bind at 1. unfold try_except.
    destruct (_read_data py fuel dev w) as [[] w1 | e1 w1 | ].
    + apply IH.
    + unfold bind at 1. unfold logging_exception, logger. apply IH.
    + discriminate.
Qed.

Lemma run_cycle_never_raises py fuel self w e w' :
  run_cycle py fuel self w <> Raise e w'.
Proof.
  unfold run_cycle. unfold bind at 1.
  destruct (read_devices py fuel (_sma_devices self) w) as [[] w1 | e1 w1 | ] eqn:H.
  - discriminate.
  - now apply read_devices_never_raises in H.
  - discriminate.
Qed.

Lemma run_never_raises py fuel self cycles :
  forall w e w', run py fuel self cycles w <> Raise e w'.
Proof.
  induction cycles as [|cycles IH]; intros w e w'; simpl.
  - discriminate.
  - unfold bind.
    destruct (run_cycle py fuel self w) as [[] w1 | e1 w1 | ] eqn:H.
    + apply IH.
    + now apply run_cycle_never_raises in H.
    + discriminate.
Qed.

(** C3: an exception raised by [_read_data] during a cycle is caught by
    [run]: it is logged, the loop sleeps for the sample interval and goes on
    with the next cycle; and no number of cycles ends in an exception. *)
Theorem cycle_errors_are_swallowed py fuel self dev w e w1 :
  _sma_devices self = [dev] ->
  _read_data py fuel dev w = Raise e w1 ->
  let logged :=
    emit (Logged ("Could not read SMA device values: " ++ fmt_exn py e))
      (emit (ExceptionLogged e) w1) in
  let asleep :=
    emit (Slept (_sample_rate self))
      (emit (Logged (asctime py (wall logged (ticks logged)) ++ " - Sleeping for "
                       ++ fmt py (JInt (_sample_rate self)) ++ " seconds"))
         (tick (emit (Logged dashes) logged))) in
  run_cycle py fuel self w = Ret tt asleep
  /\ (forall cycles,
        run py fuel self (S cycles) w = run py fuel self cycles asleep)
  /\ (forall cycles w0 e' w', run py fuel self cycles w0 <> Raise e' w').
Proof.
  intros Hdevs Hraise logged asleep.
  assert (Hcycle : run_cycle py fuel self w = Ret tt asleep).
  { unfold run_cycle. rewrite Hdevs. cbn [read_devices].
    unfold bind at 1. unfold bind at 1. unfold try_except. rewrite Hraise.
    reflexivity. }
  split; [ exact Hcycle | split ].
  - intros cycles. cbn [run]. unfold bind. rewrite Hcycle. reflexivity.
  - intros cycles. apply run_never_raises.
Qed.

Lemma cycle_errors_are_swallowed_witness :
  exists asleep,
    run_cycle plain_runtime 1 demo_plugin (fresh_world unreachable) = Ret tt asleep
    /\ trace asleep
       = [ Slept 30;
           Logged "<asctime> - Sleeping for <repr> seconds";
           Logged dashes;
           Logged "Could not read SMA device values: <exception>";
           ExceptionLogged RequestException;
           Posted "https://192.168.0.230/dyn/getValues.json?sid=" values_json ].
Proof.
  pose proof (cycle_errors_are_swallowed plain_runtime 1 demo_plugin demo_device
                (fresh_world unreachable) RequestException
                (sent "https://192.168.0.230/dyn/getValues.json?sid=" values_json
                   (fresh_world unreachable))
                eq_refl eq_refl) as (H & _).
  eexists. split; [ exact H | reflexivity ].
Defined.

(** ** The reduction of the payload *)

Lemma field_names_distinct : NoDup (map (fun entry => name (snd entry)) FIELD_MAPPING).
Proof. apply (bool_decide_unpack _). vm_compute. reflexivity. Qed.

Lemma online_is_no_field :
  forall key info, In (key, info) FIELD_MAPPING -> name info <> "online".
Proof.
  assert (H : Forall (fun entry => name (snd entry) <> "online") FIELD_MAPPING).
  { apply (bool_decide_unpack _). vm_compute. reflexivity. }
  intros key info Hin. rewrite List.Forall_forall in H. exact (H _ Hin).
Qed.

Lemma output_only_log_each info values : output_only (log_each info values).
Proof.
  induction values as [|v values IH]; simpl.
  - auto with frame.
  - apply output_only_bind; [ apply output_only_logger | intros _; exact IH ].
Qed.

Section Reduction.
Variables (py : runtime) (data : json).

Lemma output_only_read_field entry acc :
  output_only (read_field py data entry acc).
Proof.
  unfold read_field, _log_debug.
  apply output_only_bind; [ auto with frame | intros [|] ]; [ | repeat frame_step ].
  apply output_only_bind; [ auto with frame | intros raw ].
  apply output_only_bind; [ apply output_only_extract_values | intros values ].
  destruct (length values =? 0)%nat; [ repeat frame_step | ].
  destruct (length values =? 1)%nat.
  - apply output_only_bind; [ auto with frame | intros _ ].
    destruct (nth 0 values None); auto with frame.
  - apply output_only_bind; [ auto with frame | intros _ ].
    apply output_only_bind; [ apply output_only_log_each | intros _ ].
    destruct (length (not_none values) =? 1)%nat; [ auto with frame | ].
    destruct (1 <? length (not_none values))%nat; repeat frame_step.
Qed.

Lemma output_only_read_fields entries :
  forall acc, output_only (read_fields py data entries acc).
Proof.
  induction entries as [|entry entries IH]; intros acc; simpl.
  - auto with frame.
  - apply output_only_bind; [ apply output_only_read_field | intros acc'; apply IH ].
Qed.

Lemma output_only_log_unknown keys : output_only (log_unknown py data keys).
Proof.
  induction keys as [|key keys IH]; simpl.
  - auto with frame.
  - apply output_only_bind; [ auto with frame | intros known ].
    apply output_only_bind; [ | intros _; exact IH ].
    unfold _log_debug. destruct known; repeat frame_step.
Qed.

(** One field: the entry of its metric name is the reduction of what the
    extraction returns, and no other entry changes. *)
Lemma read_field_returns key info acc mv w w' :
  read_field py data (key, info) acc w = Ret mv w' ->
  (py_in key data = Ok false /\ mv = acc)
  \/ (py_in key data = Ok true
      /\ exists raw values,
          py_getitem data (JStr key) = Ok raw
          /\ extracted py key raw (factor info) values
          /\ mv = match reduced (not_none values) with
                  | Some v => <[name info := v]> acc
                  | None => acc
                  end).
Proof.
  unfold read_field, _log_debug. cbn [fst snd]. intros H.
  apply bind_ret_inv in H as (present & w1 & Hin & H).
  apply lift_ret_inv in Hin as [Hin ->].
  destruct present.
  2:{ left. split; [ exact Hin | ].
      apply bind_ret_inv in H as (u & w1 & _ & H). now injection H. }
  right. split; [ exact Hin | ].
  apply bind_ret_inv in H as (raw & w1 & Hraw & H).
  apply lift_ret_inv in Hraw as [Hraw ->].
  apply bind_ret_inv in H as (values & w1 & Hex & H).
  apply (output_only_ret_inv _ _ _ _ (output_only_extract_values py key (factor info) raw))
    in Hex as [_ Hex].
  exists raw, values. split; [ exact Hraw | split; [ exact Hex | ] ].
  destruct values as [|v1 [|v2 values]].
  - simpl in H. apply bind_ret_inv in H as (u & w2 & _ & H). now injection H.
  - simpl in H. apply bind_ret_inv in H as (u & w2 & _ & H).
    destruct v1 as [x|]; now injection H.
  - cbn [length Nat.eqb] in H.
    apply bind_ret_inv in H as (u & w2 & _ & H).
    apply bind_ret_inv in H as (u' & w3 & _ & H).
    remember (not_none (v1 :: v2 :: values)) as xs eqn:Hxs. clear Hxs.
    destruct xs as [|x1 [|x2 xs]].
    + simpl in H. now injection H.
    + simpl in H. now injection H.
    + cbn [length Nat.eqb Nat.ltb Nat.leb] in H.
      apply bind_ret_inv in H as (n & w4 & Hn & H).
      apply lift_ret_inv in Hn as [Hn ->].
      injection H as <- _.
      unfold float_of_Z in Hn.
      destruct (PrimFloat.is_infinity _); [ discriminate | ].
      injection Hn as <-. reflexivity.
Qed.

Lemma read_fields_returns entries :
  forall acc mv w w',
    NoDup (map (fun entry => name (snd entry)) entries) ->
    read_fields py data entries acc w = Ret mv w' ->
    (forall n, (forall key info, In (key, info) entries -> name info <> n) ->
               mv !! n = acc !! n)
    /\ (forall key info,
          In (key, info) entries ->
          (py_in key data = Ok false /\ mv !! name info = acc !! name info)
          \/ (py_in key data = Ok true
              /\ exists raw values,
                  py_getitem data (JStr key) = Ok raw
                  /\ extracted py key raw (factor info) values
                  /\ mv !! name info
                     = match reduced (not_none values) with
                       | Some v => Some v
                       | None => acc !! name info
                       end)).
Proof.
  induction entries as [|[key0 info0] entries IH]; intros acc mv w w' Hnodup H.
  - simpl in H. injection H as <- _. split; [ reflexivity | intros ? ? [] ].
  - cbn [read_fields] in H.
    apply bind_ret_inv in H as (acc1 & w1 & Hstep & H).
    cbn [map snd] in Hnodup. apply NoDup_cons in Hnodup as [Hfresh Hnodup].
    destruct (IH acc1 mv w1 w' Hnodup H) as [Hother Hfields].
    apply read_field_returns in Hstep.
    assert (Hacc1 : forall n, n <> name info0 -> acc1 !! n = acc !! n).
    { intros n Hn.
      destruct Hstep as [[_ ->] | (_ & raw & values & _ & _ & ->)]; [ reflexivity | ].
      destruct (reduced (not_none values)); [ | reflexivity ].
      now rewrite lookup_insert_ne. }
    assert (Hhere : mv !! name info0 = acc1 !! name info0).
    { apply Hother. intros key info Hin Heq. apply Hfresh.
      rewrite <- Heq. apply list_elem_of_In.
      apply (in_map (fun entry => name (snd entry)) _ (key, info)). exact Hin. }
    split.
    + intros n Hn. rewrite Hother.
      * apply Hacc1. intros ->. apply (Hn key0 info0); [ now left | reflexivity ].
      * intros key info Hin. apply (Hn key info). now right.
    + intros key info [Heq | Hin].
      * injection Heq as <- <-. rewrite Hhere.
        destruct Hstep as [[Hno ->] | (Hyes & raw & values & Hraw & Hex & ->)].
        -- left. split; [ exact Hno | reflexivity ].
        -- right. split; [ exact Hyes | ].
           exists raw, values. split; [ exact Hraw | split; [ exact Hex | ] ].
           destruct (reduced (not_none values)); [ | reflexivity ].
           now rewrite lookup_insert_eq.
      * assert (Hne : name info <> name info0).
        { intros Heq. apply Hfresh. rewrite <- Heq. apply list_elem_of_In.
          apply (in_map (fun entry => name (snd entry)) _ (key, info)). exact Hin. }
        rewrite <- (Hacc1 _ Hne). apply Hfields. exact Hin.
Qed.

End Reduction.

(** ** The sample of a cycle *)

Lemma read_payload_returns py serial data w w' :
  read_payload py serial data w = Ret tt w' ->
  exists mv t,
    reduction py data mv
    /\ wire w' = wire w
    /\ posts w' = posts w
    /\ _metrics_queue w'
       = {| sample_type := "sma"; timestamp := t; tags_device := serial;
            sample_values := <["online" := PBool (negb (offline mv))]> mv |}
         :: _metrics_queue w.
Proof.
  unfold read_payload, _log_separator, _log_debug. intros H.
  apply bind_ret_inv in H as (u1 & w1 & H1 & H). injection H1 as _ <-.
  apply bind_ret_inv in H as (now & w2 & H2 & H). injection H2 as _ <-.
  apply bind_ret_inv in H as (u3 & w3 & H3 & H). injection H3 as _ <-.
  apply bind_ret_inv in H as (mv & w4 & Hfields & H).
  pose proof (output_only_ret_inv _ _ _ _ (output_only_read_fields py data _ _) Hfields)
    as [[l4 ->] _].
  apply (read_fields_returns _ _ _ _ _ _ _ field_names_distinct) in Hfields
    as [Hother Hfields].
  apply bind_ret_inv in H as (keys & w5 & Hkeys & H).
  apply lift_ret_inv in Hkeys as [_ ->].
  apply bind_ret_inv in H as (u6 & w6 & Hlog & H).
  pose proof (output_only_ret_inv _ _ _ _ (output_only_log_unknown py data keys) Hlog)
    as [[l6 ->] _].
  rewrite enqueue_metrics_appendleft in H. injection H as <-.
  eexists mv, _. split; [ | split; [ | split ] ].
  - split.
    + intros n Hn. rewrite (Hother n Hn). apply lookup_empty.
    + intros key info Hin.
      destruct (Hfields key info Hin) as [[Hno Hmv] | (Hyes & raw & values & Hraw & Hex & Hmv)].
      * left. split; [ exact Hno | ]. rewrite Hmv. apply lookup_empty.
      * right. split; [ exact Hyes | ]. exists raw, values.
        split; [ exact Hraw | split; [ exact Hex | ] ].
        rewrite Hmv, lookup_empty. now destruct (reduced (not_none values)).
  - cbn. rewrite !wire_writes. reflexivity.
  - cbn. rewrite !posts_writes. reflexivity.
  - cbn. rewrite !queue_writes. reflexivity.
Qed.

(** A cycle that returns has enqueued one sample, made from the payload of
    the one device in the answer to the last request. *)
Lemma cycle_returns py fuel dev w w' :
  _read_data py fuel dev w = Ret tt w' ->
  exists resp serial data mv t,
    wire w (pred (posts w')) = Ok (JObj resp)
    /\ dict_get "result" resp = Some (JObj [(serial, data)])
    /\ data <> JNull
    /\ reduction py data mv
    /\ _metrics_queue w'
       = {| sample_type := "sma"; timestamp := t; tags_device := serial;
            sample_values := <["online" := PBool (negb (offline mv))]> mv |}
         :: _metrics_queue w.
Proof.
  unfold _read_data. intros H.
  apply bind_ret_inv in H as (response & w1 & Hfetch & H).
  apply fetch_returns in Hfetch as (n & resp & -> & Hafter & Hwire & _).
  destruct Hafter as (Hw1 & _ & Hq1 & Hp1).
  apply bind_ret_inv in H as (has_result & w2 & Hhas & H).
  apply lift_ret_inv in Hhas as [Hhas ->].
  apply bind_ret_inv in H as (unexpected & w2 & Hun & H).
  destruct unexpected; [ discriminate | ].
  destruct has_result; [ | discriminate ].
  cbn [negb] in Hun.
  apply bind_ret_inv in Hun as (result & w3 & Hres & Hun).
  apply lift_ret_inv in Hres as [Hres ->].
  apply bind_ret_inv in Hun as (len & w3 & Hlen & Hun).
  apply lift_ret_inv in Hlen as [Hlen ->].
  injection Hun as Hone <-.
  apply bind_ret_inv in H as (result' & w3 & Hres' & H).
  apply lift_ret_inv in Hres' as [Hres' ->].
  rewrite Hres in Hres'. injection Hres' as <-.
  apply bind_ret_inv in H as (keys & w3 & Hkeys & H).
  apply lift_ret_inv in Hkeys as [Hkeys ->].
  apply bind_ret_inv in H as (serial & w3 & Hserial & H).
  apply lift_ret_inv in Hserial as [Hserial ->].
  apply bind_ret_inv in H as (data & w3 & Hdata & H).
  apply lift_ret_inv in Hdata as [Hdata ->].
  destruct result as [ | | | | | | devices]; try discriminate Hkeys.
  simpl in Hkeys, Hlen. injection Hkeys as <-. injection Hlen as <-.
  destruct devices as [|[serial0 data0] [|]]; try discriminate Hone.
  cbn in Hserial. injection Hserial as <-.
  simpl in Hdata. rewrite String.eqb_refl in Hdata. injection Hdata as <-.
  simpl in Hres. destruct (dict_get "result" resp) as [result|] eqn:Hresult;
    [ | discriminate ].
  injection Hres as ->.
  assert (Hpayload : exists w'', read_payload py serial0 data0 w1 = Ret tt w'' /\ w'' = w'
                                 /\ data0 <> JNull).
  { destruct data0; try discriminate H; (eexists; split; [ exact H | split; [ reflexivity | discriminate ] ]). }
  destruct Hpayload as (w'' & Hpayload & -> & Hnn).
  apply read_payload_returns in Hpayload as (mv & t & Hred & Hw' & Hp' & Hq').
  exists resp, serial0, data0, mv, t.
  split; [ | split; [ exact Hresult | split; [ exact Hnn | split; [ exact Hred | ] ] ] ].
  - rewrite Hp', Hp1. cbn [plus pred]. exact Hwire.
  - rewrite Hq', Hq1. reflexivity.
Qed.

(** C2: in the sample of a cycle, a field of the catalog that the payload
    has is reduced from the values its extraction returns: with no
    non-absent value the metric name is absent from the values of the
    sample, with one it maps to that value, with more to their arithmetic
    mean. *)
Theorem sample_field_is_mean py fuel dev w w' :
  _read_data py fuel dev w = Ret tt w' ->
  exists resp serial data s,
    wire w (pred (posts w')) = Ok (JObj resp)
    /\ dict_get "result" resp = Some (JObj [(serial, data)])
    /\ _metrics_queue w' = s :: _metrics_queue w
    /\ forall key info,
         In (key, info) FIELD_MAPPING ->
         py_in key data = Ok true ->
         exists raw values,
           py_getitem data (JStr key) = Ok raw
           /\ extracted py key raw (factor info) values
           /\ (not_none values = [] -> sample_values s !! name info = None)
           /\ (forall x, not_none values = [x] ->
                         sample_values s !! name info = Some (PFloat x))
           /\ (2 <= length (not_none values) ->
               sample_values s !! name info = Some (PFloat (mean (not_none values)))).
Proof.
  intros H.
  apply cycle_returns in H as (resp & serial & data & mv & t & Hwire & Hres & _ & Hred & Hq).
  eexists resp, serial, data, _.
  split; [ exact Hwire | split; [ exact Hres | split; [ exact Hq | ] ] ].
  intros key info Hin Hhas. cbn [sample_values].
  destruct Hred as [_ Hfields].
  destruct (Hfields key info Hin) as [[Hno _] | (_ & raw & values & Hraw & Hex & Hmv)];
    [ congruence | ].
  exists raw, values. split; [ exact Hraw | split; [ exact Hex | ] ].
  rewrite lookup_insert_ne by (apply not_eq_sym; exact (online_is_no_field key info Hin)).
  rewrite Hmv. split; [ | split ].
  - intros ->. reflexivity.
  - intros x ->. reflexivity.
  - intros Hlen. destruct (not_none values) as [|x1 [|x2 xs]]; simpl in Hlen; try lia.
    reflexivity.
Qed.

Lemma sample_field_is_mean_witness :
  exists resp serial data s,
    wire (fresh_world (answers three_channels))
      (pred (posts (world_after
                      (_read_data plain_runtime 1 demo_device
                         (fresh_world (answers three_channels)))
                      (fresh_world (answers three_channels)))))
    = Ok (JObj resp)
    /\ dict_get "result" resp = Some (JObj [(serial, data)])
    /\ _metrics_queue (world_after
                         (_read_data plain_runtime 1 demo_device
                            (fresh_world (answers three_channels)))
                         (fresh_world (answers three_channels)))
       = s :: _metrics_queue (fresh_world (answers three_channels))
    /\ forall key info,
         In (key, info) FIELD_MAPPING ->
         py_in key data = Ok true ->
         exists raw values,
           py_getitem data (JStr key) = Ok raw
           /\ extracted plain_runtime key raw (factor info) values
           /\ (not_none values = [] -> sample_values s !! name info = None)
           /\ (forall x, not_none values = [x] ->
                         sample_values s !! name info = Some (PFloat x))
           /\ (2 <= length (not_none values) ->
               sample_values s !! name info = Some (PFloat (mean (not_none values)))).
Proof.
  apply (sample_field_is_mean plain_runtime 1 demo_device
           (fresh_world (answers three_channels))).
  vm_compute. reflexivity.
Defined.

(** The scenario of the reduction: the readings 100, null and 300 with the
    factor 1.0 give the value 200.0. *)
Example mean_of_present_readings :
  enqueued (_read_data plain_runtime 1 demo_device (fresh_world (answers three_channels)))
    ≫= (fun s => sample_values s !! "grid_power")
  = Some (PFloat 200).
Proof. vm_compute. reflexivity. Qed.

(** C4: the sample of a cycle has the entry "online", a [bool]; it is
    [False] exactly when the sample has no "frequency" (or a [None] one),
    and what the sample has under "frequency" is the reduction of the
    frequency field of the payload alone: nothing when the payload has no
    such field or the field has no reading. *)
Theorem online_follows_frequency py fuel dev w w' :
  _read_data py fuel dev w = Ret tt w' ->
  exists resp serial data s,
    wire w (pred (posts w')) = Ok (JObj resp)
    /\ dict_get "result" resp = Some (JObj [(serial, data)])
    /\ _metrics_queue w' = s :: _metrics_queue w
    /\ (exists b,
          sample_values s !! "online" = Some (PBool b)
          /\ (b = false <->
              sample_values s !! "frequency" = None
              \/ sample_values s !! "frequency" = Some PNone))
    /\ ((py_in "6100_00465700" data = Ok false
         /\ sample_values s !! "frequency" = None)
        \/ (py_in "6100_00465700" data = Ok true
            /\ exists raw values,
                py_getitem data (JStr "6100_00465700") = Ok raw
                /\ extracted py "6100_00465700" raw 100 values
                /\ sample_values s !! "frequency" = reduced (not_none values))).
Proof.
  intros H.
  apply cycle_returns in H as (resp & serial & data & mv & t & Hwire & Hres & _ & Hred & Hq).
  eexists resp, serial, data, _.
  split; [ exact Hwire | split; [ exact Hres | split; [ exact Hq | ] ] ].
  cbn [sample_values].
  assert (Hfreq : (<["online" := PBool (negb (offline mv))]> mv) !! "frequency"
                  = mv !! "frequency").
  { apply lookup_insert_ne. discriminate. }
  rewrite !Hfreq. split.
  - exists (negb (offline mv)). split; [ apply lookup_insert_eq | ].
    unfold offline. destruct (mv !! "frequency") as [[ | x | b]|]; simpl;
      split; intros; try reflexivity; try discriminate; auto;
      match goal with
      | K : _ \/ _ |- _ => destruct K; discriminate
      end.
  - destruct Hred as [_ Hfields].
    apply (Hfields "6100_00465700"
             {| name := "frequency"; description := "Frequency"; unit_ := "Hz";
                type_ := "gauge"; factor := 100 |}).
    simpl. auto.
Qed.

Lemma online_follows_frequency_witness :
  exists resp serial data s,
    wire (fresh_world (answers null_frequency))
      (pred (posts (world_after
                      (_read_data plain_runtime 1 demo_device
                         (fresh_world (answers null_frequency)))
                      (fresh_world (answers null_frequency)))))
    = Ok (JObj resp)
    /\ dict_get "result" resp = Some (JObj [(serial, data)])
    /\ _metrics_queue (world_after
                         (_read_data plain_runtime 1 demo_device
                            (fresh_world (answers null_frequency)))
                         (fresh_world (answers null_frequency)))
       = s :: _metrics_queue (fresh_world (answers null_frequency))
    /\ (exists b,
          sample_values s !! "online" = Some (PBool b)
          /\ (b = false <->
              sample_values s !! "frequency" = None
              \/ sample_values s !! "frequency" = Some PNone))
    /\ ((py_in "6100_00465700" data = Ok false
         /\ sample_values s !! "frequency" = None)
        \/ (py_in "6100_00465700" data = Ok true
            /\ exists raw values,
                py_getitem data (JStr "6100_00465700") = Ok raw
                /\ extracted plain_runtime "6100_00465700" raw 100 values
                /\ sample_values s !! "frequency" = reduced (not_none values))).
Proof.
  apply (online_follows_frequency plain_runtime 1 demo_device
           (fresh_world (answers null_frequency))).
  vm_compute. reflexivity.
Defined.

(** The scenario of the null frequency: the sample has "online" false and
    no "frequency". *)
Example null_frequency_is_offline :
  (enqueued (_read_data plain_runtime 1 demo_device (fresh_world (answers null_frequency)))
     ≫= (fun s => sample_values s !! "online")) = Some (PBool false)
  /\ (enqueued (_read_data plain_runtime 1 demo_device
                  (fresh_world (answers null_frequency)))
        ≫= (fun s => sample_values s !! "frequency")) = None.
Proof. split; vm_compute; reflexivity. Qed.

(** C10, as the code has it: in the sample of a cycle "online" is a [bool]
    and every other entry is a float under the metric name of a field of
    the catalog, the reduction of what the extraction of that field
    returned; no entry is [None], "frequency" included.  The float need not
    be finite. *)
Theorem sample_values_are_floats py fuel dev w w' :
  _read_data py fuel dev w = Ret tt w' ->
  exists resp serial data s,
    wire w (pred (posts w')) = Ok (JObj resp)
    /\ dict_get "result" resp = Some (JObj [(serial, data)])
    /\ _metrics_queue w' = s :: _metrics_queue w
    /\ (exists b, sample_values s !! "online" = Some (PBool b))
    /\ (forall n v,
          n <> "online" ->
          sample_values s !! n = Some v ->
          exists x key info raw values,
            v = PFloat x
            /\ In (key, info) FIELD_MAPPING
            /\ name info = n
            /\ py_getitem data (JStr key) = Ok raw
            /\ extracted py key raw (factor info) values
            /\ reduced (not_none values) = Some (PFloat x))
    /\ (forall n, sample_values s !! n <> Some PNone)
    /\ sample_values s !! "frequency" <> Some PNone.
Proof.
  intros H.
  apply cycle_returns in H as (resp & serial & data & mv & t & Hwire & Hres & _ & Hred & Hq).
  eexists resp, serial, data, _.
  split; [ exact Hwire | split; [ exact Hres | split; [ exact Hq | ] ] ].
  cbn [sample_values].
  assert (Hfloat : forall n v,
             n <> "online" ->
             (<["online" := PBool (negb (offline mv))]> mv) !! n = Some v ->
             exists x key info raw values,
               v = PFloat x
               /\ In (key, info) FIELD_MAPPING
               /\ name info = n
               /\ py_getitem data (JStr key) = Ok raw
               /\ extracted py key raw (factor info) values
               /\ reduced (not_none values) = Some (PFloat x)).
  { intros n v Hn Hv. rewrite lookup_insert_ne in Hv by (apply not_eq_sym; exact Hn).
    destruct Hred as [Hother Hfields].
    destruct (in_dec string_dec n (map (fun entry => name (snd entry)) FIELD_MAPPING))
      as [Hin | Hout].
    - apply in_map_iff in Hin as ([key info] & Hname & Hin). cbn [snd] in Hname.
      destruct (Hfields key info Hin) as [[_ Hmv] | (_ & raw & values & Hraw & Hex & Hmv)];
        rewrite Hname in Hmv; [ congruence | ].
      rewrite Hmv in Hv.
      assert (Hx : exists x, v = PFloat x).
      { destruct (not_none values) as [|x1 [|x2 xs]]; simpl in Hv;
          [ discriminate | injection Hv as <-; eauto | injection Hv as <-; eauto ]. }
      destruct Hx as [x ->].
      exists x, key, info, raw, values. repeat split; assumption.
    - rewrite Hother in Hv; [ discriminate | ].
      intros key info Hin Heq. apply Hout. rewrite <- Heq.
      apply (in_map (fun entry => name (snd entry)) _ (key, info)). exact Hin. }
  assert (Hnone : forall n,
             (<["online" := PBool (negb (offline mv))]> mv) !! n <> Some PNone).
  { intros n Hv. destruct (string_dec n "online") as [-> | Hn].
    - rewrite lookup_insert_eq in Hv. discriminate.
    - destruct (Hfloat n PNone Hn Hv) as (x & _ & _ & _ & _ & Hx & _). discriminate. }
  split; [ | split; [ exact Hfloat | split; [ exact Hnone | apply Hnone ] ] ].
  eexists. apply lookup_insert_eq.
Qed.

Lemma sample_values_are_floats_witness :
  exists resp serial data s,
    wire (fresh_world (answers three_channels))
      (pred (posts (world_after
                      (_read_data plain_runtime 1 demo_device
                         (fresh_world (answers three_channels)))
                      (fresh_world (answers three_channels)))))
    = Ok (JObj resp)
    /\ dict_get "result" resp = Some (JObj [(serial, data)])
    /\ _metrics_queue (world_after
                         (_read_data plain_runtime 1 demo_device
                            (fresh_world (answers three_channels)))
                         (fresh_world (answers three_channels)))
       = s :: _metrics_queue (fresh_world (answers three_channels))
    /\ (exists b, sample_values s !! "online" = Some (PBool b))
    /\ (forall n v,
          n <> "online" ->
          sample_values s !! n = Some v ->
          exists x key info raw values,
            v = PFloat x
            /\ In (key, info) FIELD_MAPPING
            /\ name info = n
            /\ py_getitem data (JStr key) = Ok raw
            /\ extracted plain_runtime key raw (factor info) values
            /\ reduced (not_none values) = Some (PFloat x))
    /\ (forall n, sample_values s !! n <> Some PNone)
    /\ sample_values s !! "frequency" <> Some PNone.
Proof.
  apply (sample_values_are_floats plain_runtime 1 demo_device
           (fresh_world (answers three_channels))).
  vm_compute. reflexivity.
Defined.

(** C10 fails as stated: two channels that both read the largest finite
    float have a sum, and so a mean, that is infinite. *)
Lemma sample_value_not_finite :
  PrimFloat.is_finite largest = true
  /\ exists w' s,
       _read_data plain_runtime 1 demo_device (fresh_world (answers two_largest))
       = Ret tt w'
       /\ _metrics_queue w' = [s]
       /\ sample_values s !! "grid_power" = Some (PFloat infinity)
       /\ PrimFloat.is_finite infinity = false.
Proof.
  split; [ reflexivity | ].
  eexists _, _. split; [ vm_compute; reflexivity | ].
  split; [ reflexivity | split; [ vm_compute; reflexivity | reflexivity ] ].
Qed.

(** * Further properties *)

(** ** Raising *)

Section Raising.
Context {A B : Type}.

Lemma bind_raise_inv (m : M A) (k : A -> M B) w e w' :
  bind m k w = Raise e w' ->
  m w = Raise e w' \/ exists a w1, m w = Ret a w1 /\ k a w1 = Raise e w'.
Proof.
  unfold bind. destruct (m w) as [a w1 | e1 w1 | ]; try discriminate.
  - eauto.
  - intros H. left. injection H as -> ->. reflexivity.
Qed.

Lemma lift_raise_inv (r : result A) w e w' :
  lift r w = Raise e w' -> r = Err e /\ w' = w.
Proof.
  unfold lift. destruct r; intros H; inversion H; auto.
Qed.

End Raising.

(** ** Steadiness *)

Lemma steady_refl w : steady w w.
Proof. repeat split. Qed.

Lemma steady_trans w1 w2 w3 : steady w1 w2 -> steady w2 w3 -> steady w1 w3.
Proof.
  intros (H1 & H2 & H3 & H4 & H5) (K1 & K2 & K3 & K4 & K5). repeat split; congruence.
Qed.

Section Keeping.
Context {A B : Type}.

Lemma keeps_ret (a : A) : keeps steady (ret a).
Proof. intros w. apply steady_refl. Qed.

Lemma keeps_raise (e : exn) : keeps steady (@raise A e).
Proof. intros w. apply steady_refl. Qed.

Lemma keeps_lift (r : result A) : keeps steady (lift r).
Proof. intros w. unfold lift. destruct r; apply steady_refl. Qed.

Lemma keeps_if (b : bool) (m1 m2 : M A) :
  keeps steady m1 -> keeps steady m2 -> keeps steady (if b then m1 else m2).
Proof. now destruct b. Qed.

Lemma keeps_bind (m : M A) (k : A -> M B) :
  keeps steady m -> (forall a, keeps steady (k a)) -> keeps steady (bind m k).
Proof.
  intros Hm Hk w. unfold bind. specialize (Hm w).
  destruct (m w) as [a w1 | e w1 | ]; [ | exact Hm | exact I ].
  specialize (Hk a w1).
  destruct (k a w1) as [b w2 | e w2 | ]; [ | | exact I ];
    eapply steady_trans; eassumption.
Qed.

Lemma keeps_try_except (m : M A) (h : exn -> M A) :
  keeps steady m -> (forall e, keeps steady (h e)) -> keeps steady (try_except m h).
Proof.
  intros Hm Hh w. unfold try_except. specialize (Hm w).
  destruct (m w) as [a w1 | e w1 | ]; [ exact Hm | | exact I ].
  specialize (Hh e w1).
  destruct (h e w1) as [b w2 | e2 w2 | ]; [ | | exact I ];
    eapply steady_trans; eassumption.
Qed.

End Keeping.

Lemma keeps_logger line : keeps steady (logger line).
Proof. intros w. repeat split. Qed.

Lemma keeps_logging_exception e : keeps steady (logging_exception e).
Proof. intros w. repeat split. Qed.

Lemma keeps_post url body : keeps steady (post url body).
Proof. intros w. unfold post. destruct (wire w (posts w)); repeat split. Qed.

Create HintDb keeping.
#[local] Hint Resolve keeps_ret keeps_raise keeps_lift keeps_if keeps_logger
  keeps_logging_exception keeps_post : keeping.

Ltac keeps_step :=
  first [ apply keeps_bind; [ | intros ? ]
        | apply keeps_try_except; [ | intros ? ]
        | solve [ auto with keeping ] ].

Lemma keeps_save sid : keeps steady (SIDPersister.save sid).
Proof.
  unfold SIDPersister.save, SIDPersister.save_body.
  apply keeps_try_except; [ | intros e; auto with keeping ].
  apply keeps_bind.
  { intros w. unfold SIDPersister.open_write.
    destruct (writable (disk w)); repeat split. }
  intros _. apply keeps_bind; [ | intros _; auto with keeping ].
  intros w. unfold SIDPersister.json_dump.
  destruct (disk_full (disk w)); repeat split.
Qed.

Lemma keeps_login py dev : keeps steady (_login py dev).
Proof.
  unfold _login.
  apply keeps_bind; [ auto with keeping | intros _ ].
  apply keeps_bind; [ auto with keeping | intros response ].
  apply keeps_bind; [ auto with keeping | intros has_result ].
  apply keeps_bind.
  { destruct has_result; repeat keeps_step. }
  intros [|].
  - apply keeps_bind; [ auto with keeping | intros result ].
    apply keeps_bind; [ auto with keeping | intros sid ].
    apply keeps_bind; [ intros w; repeat split | intros _; apply keeps_save ].
  - apply keeps_bind; [ auto with keeping | intros code ].
    destruct (py_eq_int code 503); auto with keeping.
Qed.

Lemma keeps_fetch py dev : forall fuel, keeps steady (fetch py fuel dev).
Proof.
  induction fuel as [|fuel IH]; [ intros w; exact I | ].
  cbn [fetch].
  apply keeps_bind; [ intros w; apply steady_refl | intros sid ].
  apply keeps_bind; [ auto with keeping | intros response ].
  apply keeps_bind; [ auto with keeping | intros err ].
  destruct (py_eq_int err 401); [ | auto with keeping ].
  apply keeps_bind; [ apply keeps_login | intros _; exact IH ].
Qed.

Section KeepingExtraction.
Variables (py : runtime) (key : string) (factor : float).

Lemma keeps_clean_value c : keeps steady (_clean_value py key c factor).
Proof.
  unfold _clean_value.
  apply keeps_bind; [ auto with keeping | intros has_val ].
  destruct has_val; simpl; [ | repeat keeps_step ].
  apply keeps_bind; [ auto with keeping | intros value ].
  destruct value; repeat keeps_step.
Qed.

Lemma keeps_clean_each raws :
  forall acc, keeps steady (clean_each py key factor raws acc).
Proof.
  induction raws as [|raw raws IH]; intros acc; simpl.
  - auto with keeping.
  - apply keeps_bind; [ apply keeps_clean_value | intros [x|] ]; apply IH.
Qed.

Lemma keeps_extract_values values :
  keeps steady (_extract_values py key values factor).
Proof.
  unfold _extract_values.
  apply keeps_bind; [ auto with keeping | intros n ].
  apply keeps_bind.
  { destruct (negb (n =? 1)%nat); repeat keeps_step. }
  intros [|]; [ repeat keeps_step | ].
  apply keeps_bind; [ auto with keeping | intros vs ].
  apply keeps_bind; [ auto with keeping | intros k ].
  destruct (k =? 0)%nat; [ auto with keeping | ].
  destruct (k =? 1)%nat.
  - apply keeps_bind; [ auto with keeping | intros first ].
    apply keeps_bind; [ apply keeps_clean_value | intros v; auto with keeping ].
  - apply keeps_bind; [ auto with keeping | intros raws ].
    apply keeps_clean_each.
Qed.

End KeepingExtraction.

Lemma keeps_log_each info values : keeps steady (log_each info values).
Proof.
  induction values as [|v values IH]; simpl.
  - auto with keeping.
  - apply keeps_bind; [ apply keeps_logger | intros _; exact IH ].
Qed.

Section KeepingReduction.
Variables (py : runtime) (data : json).

Lemma keeps_read_field entry acc : keeps steady (read_field py data entry acc).
Proof.
  unfold read_field, _log_debug.
  apply keeps_bind; [ auto with keeping | intros [|] ]; [ | repeat keeps_step ].
  apply keeps_bind; [ auto with keeping | intros raw ].
  apply keeps_bind; [ apply keeps_extract_values | intros values ].
  destruct (length values =? 0)%nat; [ repeat keeps_step | ].
  destruct (length values =? 1)%nat.
  - apply keeps_bind; [ auto with keeping | intros _ ].
    destruct (nth 0 values None); auto with keeping.
  - apply keeps_bind; [ auto with keeping | intros _ ].
    apply keeps_bind; [ apply keeps_log_each | intros _ ].
    destruct (length (not_none values) =? 1)%nat; [ auto with keeping | ].
    destruct (1 <? length (not_none values))%nat; repeat keeps_step.
Qed.

Lemma keeps_read_fields entries :
  forall acc, keeps steady (read_fields py data entries acc).
Proof.
  induction entries as [|entry entries IH]; intros acc; simpl.
  - auto with keeping.
  - apply keeps_bind; [ apply keeps_read_field | intros acc'; apply IH ].
Qed.

Lemma keeps_log_unknown keys : keeps steady (log_unknown py data keys).
Proof.
  induction keys as [|key keys IH]; simpl.
  - auto with keeping.
  - apply keeps_bind; [ auto with keeping | intros known ].
    apply keeps_bind; [ | intros _; exact IH ].
    unfold _log_debug. destruct known; repeat keeps_step.
Qed.

End KeepingReduction.

Section KeepingSteps.
Context {A B : Type}.

Lemma keeps_bind_ret (m : M A) (k : A -> M B) w b w' :
  keeps steady m -> bind m k w = Ret b w' ->
  exists a w1, steady w w1 /\ m w = Ret a w1 /\ k a w1 = Ret b w'.
Proof.
  intros Hm H. apply bind_ret_inv in H as (a & w1 & H1 & H).
  exists a, w1. split; [ | split; assumption ].
  specialize (Hm w). now rewrite H1 in Hm.
Qed.

Lemma keeps_bind_raise (m : M A) (k : A -> M B) w e w' :
  keeps steady m -> bind m k w = Raise e w' ->
  steady w w' \/ exists a w1, steady w w1 /\ m w = Ret a w1 /\ k a w1 = Raise e w'.
Proof.
  intros Hm H. apply bind_raise_inv in H as [H | (a & w1 & H1 & H)].
  - left. specialize (Hm w). now rewrite H in Hm.
  - right. exists a, w1. split; [ | split; assumption ].
    specialize (Hm w). now rewrite H1 in Hm.
Qed.

End KeepingSteps.

(** ** The outcomes of a cycle *)

(** The part of [_read_data] that reduces the payload either raises and
    leaves the queue alone, or enqueues one sample of type 'sma', tagged
    with the serial, stamped with the second of the two clock readings it
    takes. *)
Lemma read_payload_outcome py serial data w :
  match read_payload py serial data w with
  | Ret _ w' =>
      exists values,
        _metrics_queue w'
        = {| sample_type := "sma"; timestamp := wall w (S (ticks w));
             tags_device := serial; sample_values := values |} :: _metrics_queue w
        /\ wire w' = wire w /\ wall w' = wall w
        /\ ticks w' = 2 + ticks w /\ sleeps w' = sleeps w
  | Raise _ w' =>
      _metrics_queue w' = _metrics_queue w /\ wire w' = wire w /\ wall w' = wall w
      /\ sleeps w' = sleeps w
  | OutOfFuel => False
  end.
Proof.
  unfold read_payload, _log_separator, _log_debug.
  unfold bind at 1. unfold logger at 1.
  unfold bind at 1. unfold time_asctime at 1.
  unfold bind at 1. unfold logger at 1.
  set (w3 := emit _ (tick (emit _ w))).
  assert (H3 : _metrics_queue w3 = _metrics_queue w /\ wire w3 = wire w
               /\ wall w3 = wall w /\ ticks w3 = S (ticks w) /\ sleeps w3 = sleeps w).
  { repeat split. }
  destruct H3 as (Q3 & W3 & L3 & T3 & S3).
  unfold bind at 1.
  pose proof (keeps_read_fields py data FIELD_MAPPING ∅ w3) as Hf.
  destruct (read_fields py data FIELD_MAPPING ∅ w3) as [mv w4 | e w4 | ] eqn:Hfields.
  2:{ destruct Hf as (Q & W & L & T & S). repeat split; congruence. }
  2:{ destruct (output_only_read_fields py data FIELD_MAPPING ∅) as (r & lines & Hr).
      rewrite Hr in Hfields. unfold finish in Hfields. destruct r; discriminate. }
  destruct Hf as (Q4 & W4 & L4 & T4 & S4).
  unfold bind at 1. unfold lift at 1.
  destruct (py_iter data) as [keys | e]; [ | repeat split; congruence ].
  unfold bind at 1.
  pose proof (keeps_log_unknown py data keys w4) as Hu.
  destruct (log_unknown py data keys w4) as [u w5 | e w5 | ] eqn:Hunknown.
  2:{ destruct Hu as (Q & W & L & T & S). repeat split; congruence. }
  2:{ destruct (output_only_log_unknown py data keys) as (r & lines & Hr).
      rewrite Hr in Hunknown. unfold finish in Hunknown. destruct r; discriminate. }
  destruct Hu as (Q5 & W5 & L5 & T5 & S5).
  rewrite enqueue_metrics_appendleft.
  eexists. cbn [_metrics_queue wire wall ticks set_queue tick].
  split; [ | split; [ congruence | split; [ congruence | split ] ] ].
  - rewrite L5, L4, L3, T5, T4, T3, Q5, Q4, Q3. reflexivity.
  - rewrite T5, T4, T3. reflexivity.
  - change (sleeps (set_queue _ (tick w5))) with (sleeps w5). congruence.
Qed.

(** The checks of [_read_data] between the request loop and the payload. *)
Lemma read_data_outcome py fuel dev w :
  match _read_data py fuel dev w with
  | Ret _ w' =>
      exists s,
        _metrics_queue w' = s :: _metrics_queue w
        /\ sample_type s = "sma"
        /\ timestamp s = wall w (S (ticks w))
        /\ wire w' = wire w /\ wall w' = wall w
        /\ ticks w' = 2 + ticks w /\ sleeps w' = sleeps w
  | Raise _ w' =>
      _metrics_queue w' = _metrics_queue w /\ wire w' = wire w /\ wall w' = wall w
      /\ sleeps w' = sleeps w
  | OutOfFuel => True
  end.
Proof.
  unfold _read_data. unfold bind at 1.
  pose proof (keeps_fetch py dev fuel w) as Hf.
  destruct (fetch py fuel dev w) as [response w1 | e w1 | ]; [ | | exact I ].
  2:{ destruct Hf as (Q & W & L & T & S). repeat split; assumption. }
  destruct Hf as (Q1 & W1 & L1 & T1 & S1).
  assert (Hstay : _metrics_queue w1 = _metrics_queue w /\ wire w1 = wire w
                  /\ wall w1 = wall w /\ sleeps w1 = sleeps w) by (repeat split; assumption).
  unfold bind at 1. unfold lift at 1.
  destruct (py_in "result" response) as [has_result | e]; [ | exact Hstay ].
  unfold bind at 1.
  assert (Hcheck : exists r : result bool,
             (if negb has_result then ret true
              else bind (lift (py_getitem response (JStr "result")))
                     (fun result => bind (lift (py_len result))
                                      (fun n => ret (negb (n =? 1)%nat)))) w1
             = lift r w1).
  { destruct has_result; cbn [negb]; [ | exists (Ok true); reflexivity ].
    unfold bind, lift, ret.
    destruct (py_getitem response (JStr "result")) as [result | e];
      [ | exists (Err e); reflexivity ].
    destruct (py_len result) as [n | e]; [ | exists (Err e); reflexivity ].
    exists (Ok (negb (n =? 1)%nat)). reflexivity. }
  destruct Hcheck as [r ->]. unfold lift at 1.
  destruct r as [unexpected | e]; [ | exact Hstay ].
  destruct unexpected; [ exact Hstay | ].
  unfold bind at 1. unfold lift at 1.
  destruct (py_getitem response (JStr "result")) as [result | e]; [ | exact Hstay ].
  unfold bind at 1. unfold lift at 1.
  destruct (py_keys result) as [keys | e]; [ | exact Hstay ].
  unfold bind at 1. unfold lift at 1.
  destruct (seq_index keys 0) as [serial | e]; [ | exact Hstay ].
  unfold bind at 1. unfold lift at 1.
  destruct (py_getitem result (JStr serial)) as [data | e]; [ | exact Hstay ].
  assert (Hpayload :
            match read_payload py serial data w1 with
            | Ret _ w' =>
                exists s,
                  _metrics_queue w' = s :: _metrics_queue w
                  /\ sample_type s = "sma"
                  /\ timestamp s = wall w (S (ticks w))
                  /\ wire w' = wire w /\ wall w' = wall w
                  /\ ticks w' = 2 + ticks w /\ sleeps w' = sleeps w
            | Raise _ w' =>
                _metrics_queue w' = _metrics_queue w /\ wire w' = wire w
                /\ wall w' = wall w /\ sleeps w' = sleeps w
            | OutOfFuel => True
            end).
  { pose proof (read_payload_outcome py serial data w1) as Hp.
    destruct (read_payload py serial data w1) as [u w2 | e w2 | ]; [ | | exact I ].
    - destruct Hp as (values & Q & W & L & T & S).
      eexists. split; [ rewrite Q, Q1; reflexivity | ].
      cbn [sample_type timestamp].
      split; [ reflexivity | split; [ congruence | ] ].
      split; [ congruence | split; [ congruence | split; [ | congruence ] ] ].
      rewrite T, T1. reflexivity.
    - destruct Hp as (Q & W & L & S). repeat split; congruence. }
  destruct data; first [ exact Hpayload | exact Hstay ].
Qed.

(** X1: a cycle that raises has enqueued nothing: the queue is as it was
    before the cycle. *)
Theorem failed_cycle_enqueues_nothing py fuel dev w e w' :
  _read_data py fuel dev w = Raise e w' ->
  _metrics_queue w' = _metrics_queue w.
Proof.
  intros H. pose proof (read_data_outcome py fuel dev w) as Ho.
  rewrite H in Ho. apply Ho.
Qed.

Lemma failed_cycle_enqueues_nothing_witness :
  _metrics_queue
    (world_after (_read_data plain_runtime 1 demo_device (fresh_world sessions_exhausted))
       (fresh_world sessions_exhausted))
  = _metrics_queue (fresh_world sessions_exhausted).
Proof.
  apply (failed_cycle_enqueues_nothing plain_runtime 1 demo_device
           (fresh_world sessions_exhausted)
           (RuntimeError "Maximum amount of sessions")).
  vm_compute. reflexivity.
Defined.

(** X2: a cycle that returns has put exactly one sample at the left end of
    the queue: its type is 'sma', its tag is the one device key of the
    answer to the last request, and its timestamp is the clock reading taken
    after the one for the log line. *)
Theorem successful_cycle_enqueues_one py fuel dev w w' :
  _read_data py fuel dev w = Ret tt w' ->
  exists resp serial data s,
    wire w (pred (posts w')) = Ok (JObj resp)
    /\ dict_get "result" resp = Some (JObj [(serial, data)])
    /\ _metrics_queue w' = s :: _metrics_queue w
    /\ sample_type s = "sma"
    /\ tags_device s = serial
    /\ timestamp s = wall w (S (ticks w))
    /\ ticks w' = 2 + ticks w.
Proof.
  intros H. pose proof (read_data_outcome py fuel dev w) as Ho.
  rewrite H in Ho. destruct Ho as (s & Hq & Htype & Htime & _ & _ & Hticks & _).
  apply cycle_returns in H
    as (resp & serial & data & mv & t & Hwire & Hres & _ & _ & Hq').
  exists resp, serial, data, s.
  rewrite Hq in Hq'. injection Hq' as Hs.
  repeat (split; [ assumption | ]). split; [ | split; assumption ].
  rewrite Hs. reflexivity.
Qed.

Lemma successful_cycle_enqueues_one_witness :
  exists resp serial data s,
    wire (fresh_world (answers three_channels))
      (pred (posts (world_after
                      (_read_data plain_runtime 1 demo_device
                         (fresh_world (answers three_channels)))
                      (fresh_world (answers three_channels)))))
    = Ok (JObj resp)
    /\ dict_get "result" resp = Some (JObj [(serial, data)])
    /\ _metrics_queue (world_after
                         (_read_data plain_runtime 1 demo_device
                            (fresh_world (answers three_channels)))
                         (fresh_world (answers three_channels)))
       = s :: _metrics_queue (fresh_world (answers three_channels))
    /\ sample_type s = "sma"
    /\ tags_device s = serial
    /\ timestamp s
       = wall (fresh_world (answers three_channels))
           (S (ticks (fresh_world (answers three_channels))))
    /\ ticks (world_after
                (_read_data plain_runtime 1 demo_device
                   (fresh_world (answers three_channels)))
                (fresh_world (answers three_channels)))
       = 2 + ticks (fresh_world (answers three_channels)).
Proof.
  apply (successful_cycle_enqueues_one plain_runtime 1 demo_device
           (fresh_world (answers three_channels))).
  vm_compute. reflexivity.
Defined.

(** ** The loop over the cycles *)

Lemma read_devices_outcome py fuel devices :
  forall w w',
    read_devices py fuel devices w = Ret tt w' ->
    sleeps w' = sleeps w
    /\ exists new,
         _metrics_queue w' = (new ++ _metrics_queue w)%list
         /\ length new <= length devices.
Proof.
  induction devices as [|dev devices IH]; intros w w' H.
  - injection H as <-. split; [ reflexivity | ]. exists []. split; [ reflexivity | simpl; lia ].
  - cbn [read_devices] in H. apply bind_ret_inv in H as ([] & w1 & Htry & H).
    apply IH in H as (Hs & new & Hq & Hlen).
    unfold try_except in Htry.
    pose proof (read_data_outcome py fuel dev w) as Ho.
    destruct (_read_data py fuel dev w) as [[] w0 | e w0 | ]; [ | | discriminate ].
    + injection Htry as <-.
      destruct Ho as (s & Q & _ & _ & _ & _ & _ & S).
      split; [ congruence | ].
      exists (new ++ [s])%list. split.
      * rewrite Hq, Q, <- app_assoc. reflexivity.
      * rewrite length_app. simpl. lia.
    + unfold bind, logging_exception, logger in Htry. injection Htry as <-.
      destruct Ho as (Q & _ & _ & S).
      split; [ rewrite Hs; exact S | ].
      exists new. split; [ rewrite Hq; cbn; rewrite Q; reflexivity | simpl; lia ].
Qed.

Lemma run_cycle_outcome py fuel self w w' :
  run_cycle py fuel self w = Ret tt w' ->
  sleeps w' = S (sleeps w)
  /\ exists new,
       _metrics_queue w' = (new ++ _metrics_queue w)%list
       /\ length new <= length (_sma_devices self).
Proof.
  unfold run_cycle, _log_separator. intros H.
  apply bind_ret_inv in H as ([] & w1 & Hdev & H).
  apply read_devices_outcome in Hdev as (Hs & new & Hq & Hlen).
  unfold bind, logger, time_asctime, time_sleep in H. injection H as <-.
  split; [ | exists new; split; [ exact Hq | exact Hlen ] ].
  unfold sleeps in *. cbn. rewrite Hs. reflexivity.
Qed.

(** X3: when [cycles] turns of [run] have been completed, the process has
    slept exactly [cycles] times more, and the queue is the old queue with
    at most one new sample for each device and cycle to its left: the
    poller never removes or reorders what is waiting. *)
Theorem run_sleeps_once_a_cycle py fuel self :
  forall cycles w w',
    run py fuel self cycles w = Ret tt w' ->
    sleeps w' = cycles + sleeps w
    /\ exists new,
         _metrics_queue w' = (new ++ _metrics_queue w)%list
         /\ length new <= cycles * length (_sma_devices self).
Proof.
  induction cycles as [|cycles IH]; intros w w' H.
  - injection H as <-. split; [ reflexivity | ]. exists []. split; [ reflexivity | simpl; lia ].
  - cbn [run] in H. apply bind_ret_inv in H as ([] & w1 & Hcycle & H).
    apply run_cycle_outcome in Hcycle as (S1 & new1 & Q1 & L1).
    apply IH in H as (S2 & new2 & Q2 & L2).
    split; [ rewrite S2, S1; lia | ].
    exists (new2 ++ new1)%list. split.
    + rewrite Q2, Q1, app_assoc. reflexivity.
    + rewrite length_app. simpl. lia.
Qed.

Lemma run_sleeps_once_a_cycle_witness :
  sleeps (world_after (run plain_runtime 1 demo_plugin 2 (fresh_world (answers three_channels)))
            (fresh_world (answers three_channels)))
  = 2 + sleeps (fresh_world (answers three_channels))
  /\ exists new,
       _metrics_queue
         (world_after (run plain_runtime 1 demo_plugin 2 (fresh_world (answers three_channels)))
            (fresh_world (answers three_channels)))
       = (new ++ _metrics_queue (fresh_world (answers three_channels)))%list
       /\ length new <= 2 * length (_sma_devices demo_plugin).
Proof.
  apply (run_sleeps_once_a_cycle plain_runtime 1 demo_plugin 2
           (fresh_world (answers three_channels))).
  vm_compute. reflexivity.
Defined.

(** ** Sessions *)

(** What [save] does to the world, whatever the state of the file. *)
Lemma save_effect sid w :
  exists w',
    SIDPersister.save sid w = Ret tt w'
    /\ _sma_sid w' = _sma_sid w
    /\ posts w' = posts w
    /\ wire w' = wire w
    /\ (writable (disk w) = true -> disk_full (disk w) = false ->
        content (disk w') = Some (Parses (JObj [("sid", sid)]))
        /\ readable (disk w') = readable (disk w))
    /\ (writable (disk w) = false -> disk w' = disk w).
Proof.
  unfold SIDPersister.save, SIDPersister.save_body, try_except, bind,
    SIDPersister.open_write, SIDPersister.json_dump.
  destruct (writable (disk w)) eqn:Hw; simpl.
  - destruct (disk_full (disk w)) eqn:Hf; simpl; eexists;
      (split; [ reflexivity | ]); repeat split; intros; try reflexivity; discriminate.
  - eexists. split; [ reflexivity | ]. repeat split; intros; try reflexivity; discriminate.
Qed.

(** An accepted login is the store of the token in the cache, then its
    [save]. *)
Lemma login_accepted py dev w r res sid :
  wire w (posts w) = Ok (JObj r) ->
  dict_get "result" r = Some (JObj res) ->
  dict_get "sid" res = Some sid ->
  _login py dev w
  = SIDPersister.save sid
      (set_sid (sma_inverter_ip dev) sid
         (sent (login_endpoint (sma_inverter_ip dev)) (login_json dev)
            (emit (Logged "Doing new login") w))).
Proof.
  intros Hw Hres Hsid.
  unfold _login. unfold bind at 1. unfold logger at 1.
  unfold bind at 1. unfold post. cbn [wire posts emit]. rewrite Hw.
  unfold bind at 1. unfold lift at 1. unfold py_in at 1. unfold dict_has. rewrite Hres.
  unfold bind at 1. unfold bind at 1. unfold lift at 1. unfold py_getitem at 1. rewrite Hres.
  unfold lift at 1. unfold py_in at 1. unfold dict_has. rewrite Hsid.
  unfold bind at 1. unfold lift at 1. unfold py_getitem at 1. rewrite Hres.
  unfold bind at 1. unfold lift at 1. unfold py_getitem at 1. rewrite Hsid.
  unfold bind at 1. reflexivity.
Qed.

(** X4: a login that the device accepts caches the token for the endpoint
    and returns, after one request, whether or not the session file can be
    written; on a file that can be written and read, [get] then returns the
    token. *)
Theorem login_caches_and_persists py dev w r res sid :
  wire w (posts w) = Ok (JObj r) ->
  dict_get "result" r = Some (JObj res) ->
  dict_get "sid" res = Some sid ->
  exists w',
    _login py dev w = Ret tt w'
    /\ current_sid (sma_inverter_ip dev) w' = sid
    /\ posts w' = S (posts w)
    /\ (writable (disk w) = true -> disk_full (disk w) = false ->
        readable (disk w) = true ->
        exists w'', SIDPersister.get w' = Ret sid w'').
Proof.
  intros Hw Hres Hsid.
  rewrite (login_accepted py dev w r res sid Hw Hres Hsid).
  destruct (save_effect sid
              (set_sid (sma_inverter_ip dev) sid
                 (sent (login_endpoint (sma_inverter_ip dev)) (login_json dev)
                    (emit (Logged "Doing new login") w))))
    as (w' & Hsave & Hsids & Hposts & _ & Hwritten & _).
  exists w'. split; [ exact Hsave | split; [ | split; [ exact Hposts | ] ] ].
  - unfold current_sid. rewrite Hsids. cbn [_sma_sid set_sid].
    rewrite lookup_insert_eq. reflexivity.
  - intros Hwr Hfull Hrd. cbn in Hwritten.
    destruct (Hwritten Hwr Hfull) as [Hcontent Hreadable].
    eexists.
    unfold SIDPersister.get, SIDPersister.get_body, try_except, bind,
      SIDPersister.open_read.
    rewrite Hcontent, Hreadable, Hrd. reflexivity.
Qed.

Lemma login_caches_and_persists_witness :
  exists w',
    _login plain_runtime demo_device (fresh_world (fun _ => Ok (accepted (JStr "abc"))))
    = Ret tt w'
    /\ current_sid (sma_inverter_ip demo_device) w' = JStr "abc"
    /\ posts w' = 1
    /\ (writable working_disk = true -> disk_full working_disk = false ->
        readable working_disk = true ->
        exists w'', SIDPersister.get w' = Ret (JStr "abc") w'').
Proof.
  apply (login_caches_and_persists plain_runtime demo_device
           (fresh_world (fun _ => Ok (accepted (JStr "abc"))))
           [("result", JObj [("sid", JStr "abc")])] [("sid", JStr "abc")] (JStr "abc"));
    reflexivity.
Defined.

(** X5: a login that raises, for whatever reason, has sent its one request
    and has changed neither the cached tokens nor the session file. *)
Theorem failed_login_changes_nothing py dev w e w' :
  _login py dev w = Raise e w' ->
  _sma_sid w' = _sma_sid w /\ disk w' = disk w /\ posts w' = S (posts w).
Proof.
  unfold _login. intros H.
  apply bind_raise_inv in H as [H | (u & w1 & Hlog & H)]; [ discriminate | ].
  injection Hlog as _ <-.
  assert (Hsent : forall w2 : world,
             w2 = sent (login_endpoint (sma_inverter_ip dev)) (login_json dev)
                    (emit (Logged "Doing new login") w) ->
             _sma_sid w2 = _sma_sid w /\ disk w2 = disk w /\ posts w2 = S (posts w)).
  { intros w2 ->. repeat split. }
  apply bind_raise_inv in H as [H | (response & w2 & Hpost & H)].
  { unfold post in H. destruct (wire _ _); [ discriminate | ].
    injection H as _ <-. apply Hsent. reflexivity. }
  assert (Hw2 : w2 = sent (login_endpoint (sma_inverter_ip dev)) (login_json dev)
                       (emit (Logged "Doing new login") w)).
  { unfold post in Hpost. destruct (wire _ _); [ | discriminate ].
    now injection Hpost. }
  specialize (Hsent w2 Hw2). clear Hw2 Hpost.
  apply bind_raise_inv in H as [H | (has_result & w3 & Hin & H)].
  { now apply lift_raise_inv in H as [_ ->]. }
  apply lift_ret_inv in Hin as [_ ->].
  apply bind_raise_inv in H as [H | (has_sid & w3 & Hsid & H)].
  { destruct has_result; [ | discriminate ].
    apply bind_raise_inv in H as [H | (result & w3 & Hres & H)].
    - now apply lift_raise_inv in H as [_ ->].
    - apply lift_ret_inv in Hres as [_ ->]. now apply lift_raise_inv in H as [_ ->]. }
  assert (w3 = w2) as ->.
  { destruct has_result.
    - apply bind_ret_inv in Hsid as (result & w4 & Hres & Hsid).
      apply lift_ret_inv in Hres as [_ ->]. now apply lift_ret_inv in Hsid as [_ ->].
    - now injection Hsid. }
  destruct has_sid.
  - apply bind_raise_inv in H as [H | (result & w3 & Hres & H)].
    { now apply lift_raise_inv in H as [_ ->]. }
    apply lift_ret_inv in Hres as [_ ->].
    apply bind_raise_inv in H as [H | (sid & w3 & Hget & H)].
    { now apply lift_raise_inv in H as [_ ->]. }
    apply lift_ret_inv in Hget as [_ ->].
    apply bind_raise_inv in H as [H | (u' & w3 & Hset & H)]; [ discriminate | ].
    injection Hset as _ <-.
    destruct (save_effect sid (set_sid (sma_inverter_ip dev) sid w2)) as (w4 & Hs & _).
    rewrite Hs in H. discriminate.
  - apply bind_raise_inv in H as [H | (code & w3 & Hcode & H)].
    { now apply lift_raise_inv in H as [_ ->]. }
    apply lift_ret_inv in Hcode as [_ ->].
    destruct (py_eq_int code 503); injection H as _ <-; exact Hsent.
Qed.

Lemma failed_login_changes_nothing_witness :
  _sma_sid (world_after (_login plain_runtime demo_device
                           (fresh_world (fun _ => Ok (JObj [("err", JInt 500)]))))
              (fresh_world (fun _ => Ok (JObj [("err", JInt 500)]))))
  = _sma_sid (fresh_world (fun _ => Ok (JObj [("err", JInt 500)])))
  /\ disk (world_after (_login plain_runtime demo_device
                          (fresh_world (fun _ => Ok (JObj [("err", JInt 500)]))))
             (fresh_world (fun _ => Ok (JObj [("err", JInt 500)]))))
     = disk (fresh_world (fun _ => Ok (JObj [("err", JInt 500)])))
  /\ posts (world_after (_login plain_runtime demo_device
                           (fresh_world (fun _ => Ok (JObj [("err", JInt 500)]))))
              (fresh_world (fun _ => Ok (JObj [("err", JInt 500)]))))
     = S (posts (fresh_world (fun _ => Ok (JObj [("err", JInt 500)])))).
Proof.
  apply (failed_login_changes_nothing plain_runtime demo_device
           (fresh_world (fun _ => Ok (JObj [("err", JInt 500)])))
           (RuntimeError "Could not login: <repr>")).
  vm_compute. reflexivity.
Defined.

(** X6: when the fetch is answered with the error code 401 and the login is
    accepted, the request loop fetches again, and this next request carries
    the token the login returned; the loop returns its answer after three
    requests. *)
Theorem relogin_retries_with_new_token py fuel dev w r1 r2 res sid r3 :
  wire w (posts w) = Ok (JObj r1) ->
  py_eq_int (default JNull (dict_get "err" r1)) 401 = true ->
  wire w (1 + posts w) = Ok (JObj r2) ->
  dict_get "result" r2 = Some (JObj res) ->
  dict_get "sid" res = Some sid ->
  wire w (2 + posts w) = Ok (JObj r3) ->
  py_eq_int (default JNull (dict_get "err" r3)) 401 = false ->
  exists w',
    fetch py (S (S fuel)) dev w = Ret (JObj r3) w'
    /\ head (trace w') = Some (Posted (values_endpoint py (sma_inverter_ip dev) sid)
                                 values_json)
    /\ posts w' = 3 + posts w
    /\ current_sid (sma_inverter_ip dev) w' = sid.
Proof.
  intros H1 H401 H2 Hres Hsid H3 Hok.
  set (ip := sma_inverter_ip dev).
  set (w1 := sent (values_endpoint py ip (current_sid ip w)) values_json w).
  assert (Hlogin : exists w2,
             _login py dev w1 = Ret tt w2
             /\ current_sid ip w2 = sid /\ posts w2 = 2 + posts w /\ wire w2 = wire w).
  { rewrite (login_accepted py dev w1 r2 res sid H2 Hres Hsid).
    destruct (save_effect sid
                (set_sid ip sid
                   (sent (login_endpoint ip) (login_json dev)
                      (emit (Logged "Doing new login") w1))))
      as (w2 & Hsave & Hsids & Hposts & Hwire & _).
    exists w2. split; [ exact Hsave | split; [ | split; [ exact Hposts | exact Hwire ] ] ].
    unfold current_sid. rewrite Hsids. cbn [_sma_sid set_sid].
    rewrite lookup_insert_eq. reflexivity. }
  destruct Hlogin as (w2 & Hlogin & Hcur & Hp2 & Hw2).
  exists (sent (values_endpoint py ip (current_sid ip w2)) values_json w2).
  split; [ | split; [ | split ] ].
  - change (fetch py (S (S fuel)) dev w)
      with (bind (fun w0 => Ret (current_sid ip w0) w0)
              (fun sid0 =>
                 bind (post (values_endpoint py ip sid0) values_json)
                   (fun response =>
                      bind (lift (py_get response "err" JNull))
                        (fun err =>
                           if py_eq_int err 401
                           then bind (_login py dev) (fun _ => fetch py (S fuel) dev)
                           else ret response))) w).
    unfold bind at 1. unfold bind at 1. unfold post. rewrite H1.
    unfold bind at 1. unfold lift, py_get.
    assert (E : py_eq_int match dict_get "err" r1 with Some x => x | None => JNull end 401
                = true).
    { destruct (dict_get "err" r1); exact H401. }
    rewrite E. unfold bind at 1. fold w1. rewrite Hlogin.
    apply fetch_first; [ rewrite Hw2, Hp2; exact H3 | exact Hok ].
  - cbn [trace sent head]. rewrite Hcur. reflexivity.
  - cbn [posts sent]. rewrite Hp2. reflexivity.
  - change (current_sid ip (sent (values_endpoint py ip (current_sid ip w2)) values_json w2))
      with (current_sid ip w2). exact Hcur.
Qed.

Lemma relogin_retries_with_new_token_witness :
  exists w',
    fetch plain_runtime 2 demo_device (fresh_world (renews_then_answers (JObj [])))
    = Ret (JObj [("result", JObj [("3001234567", JObj [])])]) w'
    /\ head (trace w')
       = Some (Posted (values_endpoint plain_runtime (sma_inverter_ip demo_device)
                         (JStr "fresh")) values_json)
    /\ posts w' = 3
    /\ current_sid (sma_inverter_ip demo_device) w' = JStr "fresh".
Proof.
  apply (relogin_retries_with_new_token plain_runtime 0 demo_device
           (fresh_world (renews_then_answers (JObj [])))
           [("err", JInt 401)]
           [("result", JObj [("sid", JStr "fresh")])] [("sid", JStr "fresh")]
           (JStr "fresh")
           [("result", JObj [("3001234567", JObj [])])]);
    reflexivity.
Defined.

(** X7: the request loop has no bound of its own: in front of a device that
    answers every fetch with the error code 401 and accepts every login, the
    cycle does not end, whatever fuel it is given. *)
Theorem perpetual_expiry_never_returns py dev :
  forall fuel w,
    (forall n, wire w (2 * n + posts w) = Ok expired
               /\ exists sid, wire w (S (2 * n + posts w)) = Ok (accepted sid)) ->
    _read_data py fuel dev w = OutOfFuel.
Proof.
  assert (Hfetch : forall fuel w,
             (forall n, wire w (2 * n + posts w) = Ok expired
                        /\ exists sid, wire w (S (2 * n + posts w)) = Ok (accepted sid)) ->
             fetch py fuel dev w = OutOfFuel).
  { induction fuel as [|fuel IH]; intros w Hw; [ reflexivity | ].
    destruct (Hw 0) as [H1 [sid H2]]. cbn [Nat.mul Nat.add] in H1, H2.
    set (ip := sma_inverter_ip dev).
    set (w1 := sent (values_endpoint py ip (current_sid ip w)) values_json w).
    destruct (save_effect sid
                (set_sid ip sid
                   (sent (login_endpoint ip) (login_json dev)
                      (emit (Logged "Doing new login") w1))))
      as (w2 & Hsave & _ & Hposts & Hwire & _).
    cbn [fetch]. unfold bind at 1. unfold bind at 1. unfold post. rewrite H1.
    unfold bind at 1. unfold lift, py_get, expired. cbn [dict_get String.eqb Ascii.eqb Bool.eqb].
    cbn [py_eq_int Z.eqb Pos.eqb]. unfold bind at 1. fold ip. fold w1.
    rewrite (login_accepted py dev w1 [("result", JObj [("sid", sid)])] [("sid", sid)] sid
               H2 eq_refl eq_refl).
    fold ip. rewrite Hsave.
    apply IH. intros n. rewrite Hwire, Hposts. cbn [posts sent emit set_sid w1].
    destruct (Hw (S n)) as [K1 [sid' K2]].
    replace (2 * n + S (S (posts w))) with (2 * S n + posts w) by lia.
    split; [ exact K1 | exists sid'; exact K2 ]. }
  intros fuel w Hw. unfold _read_data, bind. now rewrite Hfetch.
Qed.

Lemma perpetual_expiry_never_returns_witness :
  _read_data plain_runtime 1000 demo_device (fresh_world revolving) = OutOfFuel.
Proof.
  apply (perpetual_expiry_never_returns plain_runtime demo_device 1000
           (fresh_world revolving)).
  intros n. change (posts (fresh_world revolving)) with 0.
  change (wire (fresh_world revolving)) with revolving.
  rewrite Nat.add_0_r. unfold revolving. split.
  - rewrite Nat.even_mul. reflexivity.
  - exists (JStr "s"). rewrite Nat.even_succ, Nat.odd_mul. reflexivity.
Defined.

(** X8: when the fetch request itself fails, by an exception of the
    transport or by an answer that is no JSON object, the cycle raises that
    exception ([AttributeError] for the answer) after this one request: it
    does not log in, and it does not retry. *)
Theorem failed_fetch_fails_the_cycle py fuel dev w e :
  wire w (posts w) = Err e
  \/ (exists v, wire w (posts w) = Ok v
                /\ (forall fields, v <> JObj fields) /\ e = AttributeError) ->
  _read_data py (S fuel) dev w
  = Raise e (sent (values_endpoint py (sma_inverter_ip dev)
                     (current_sid (sma_inverter_ip dev) w)) values_json w).
Proof.
  intros H. unfold _read_data. unfold bind at 1. cbn [fetch].
  unfold bind at 1. unfold bind at 1. unfold post.
  destruct H as [H | (v & H & Hv & ->)]; rewrite H; [ reflexivity | ].
  unfold bind at 1. unfold lift, py_get.
  destruct v; try reflexivity. exfalso. eapply Hv. reflexivity.
Qed.

Lemma failed_fetch_fails_the_cycle_witness :
  _read_data plain_runtime 1 demo_device (fresh_world (fun _ => Ok (JArr [])))
  = Raise AttributeError
      (sent (values_endpoint plain_runtime (sma_inverter_ip demo_device)
               (current_sid (sma_inverter_ip demo_device)
                  (fresh_world (fun _ => Ok (JArr [])))))
         values_json (fresh_world (fun _ => Ok (JArr [])))).
Proof.
  apply (failed_fetch_fails_the_cycle plain_runtime 0 demo_device
           (fresh_world (fun _ => Ok (JArr [])))).
  right. exists (JArr []). split; [ reflexivity | split; [ discriminate | reflexivity ] ].
Defined.

(** The constructor seeds the cache from a session file that holds a token
    with a true truth value. *)
Lemma init_reads_the_session device_ip device_password w doc sid :
  content (disk w) = Some (Parses (JObj doc)) -> readable (disk w) = true ->
  dict_get "sid" doc = Some sid -> py_truthy sid = true ->
  exists self w',
    __init__ device_ip device_password w = Ret self w'
    /\ current_sid ("https://" ++ device_ip) w' = sid
    /\ _metrics_queue w' = []
    /\ _sma_devices self
       = [ {| sma_inverter_ip := "https://" ++ device_ip; password := device_password |} ].
Proof.
  intros Hc Hr Hsid Htrue.
  unfold __init__. unfold bind at 1. unfold bind at 1.
  unfold SIDPersister.get, SIDPersister.get_body, try_except, bind at 1,
    SIDPersister.open_read.
  cbn [disk set_queue]. rewrite Hc, Hr.
  unfold bind at 1. unfold lift at 1. cbn [SIDPersister.json_load].
  unfold bind at 1. unfold lift at 1. cbn [py_getitem]. rewrite Hsid.
  unfold bind at 1. unfold logger at 1. unfold ret at 1.
  unfold bind at 1. rewrite Htrue.
  eexists _, _. split; [ reflexivity | ]. split; [ | split; reflexivity ].
  unfold current_sid. cbn [_sma_sid]. rewrite lookup_singleton_eq. reflexivity.
Qed.

(** X9: the session outlives the process: a token with a true truth value
    that one process saves in a file that can be written and read is the
    current token of the endpoint in the process constructed next over that
    file; and a process constructed where there is no session file starts
    with an empty cache, so that its current token is the empty string. *)
Theorem restart_keeps_the_session device_ip device_password sid w :
  (writable (disk w) = true -> disk_full (disk w) = false ->
   readable (disk w) = true -> py_truthy sid = true ->
   exists w1 self w2,
     SIDPersister.save sid w = Ret tt w1
     /\ __init__ device_ip device_password w1 = Ret self w2
     /\ current_sid ("https://" ++ device_ip) w2 = sid
     /\ _metrics_queue w2 = [])
  /\ (content (disk w) = None ->
      exists self w2,
        __init__ device_ip device_password w = Ret self w2
        /\ _sma_sid w2 = ∅
        /\ current_sid ("https://" ++ device_ip) w2 = JStr "").
Proof.
  split.
  - intros Hw Hfull Hr Htrue.
    destruct (save_effect sid w) as (w1 & Hsave & _ & _ & _ & Hwritten & _).
    destruct (Hwritten Hw Hfull) as [Hcontent Hreadable].
    destruct (init_reads_the_session device_ip device_password w1 [("sid", sid)] sid)
      as (self & w2 & Hinit & Hcur & Hq & _);
      [ exact Hcontent | congruence | reflexivity | exact Htrue | ].
    exists w1, self, w2. repeat split; assumption.
  - intros Hnone.
    unfold __init__. unfold bind at 1. unfold bind at 1.
    unfold SIDPersister.get, SIDPersister.get_body, try_except, bind at 1,
      SIDPersister.open_read.
    cbn [disk set_queue]. rewrite Hnone.
    unfold bind at 1. unfold logging_exception at 1. unfold ret at 1.
    unfold bind at 1. cbn [py_truthy].
    eexists _, _. split; [ reflexivity | split; reflexivity ].
Qed.

Lemma restart_keeps_the_session_witness :
  exists w1 self w2,
    SIDPersister.save (JStr "abc") (fresh_world unreachable) = Ret tt w1
    /\ __init__ "192.168.0.230" "secret" w1 = Ret self w2
    /\ current_sid ("https://" ++ "192.168.0.230") w2 = JStr "abc"
    /\ _metrics_queue w2 = [].
Proof.
  apply (proj1 (restart_keeps_the_session "192.168.0.230" "secret" (JStr "abc")
                  (fresh_world unreachable))); reflexivity.
Defined.

(** ** The session file *)

(** X10: [save] never raises.  When the file cannot be opened for writing
    it stays as it is and the exception is logged; when the write fails
    after the file has been opened, the file is left truncated, and [get]
    reads it as absent: the token stored before is lost. *)
Theorem save_is_best_effort sid w :
  exists w',
    SIDPersister.save sid w = Ret tt w'
    /\ (writable (disk w) = false ->
        disk w' = disk w /\ trace w' = ExceptionLogged OSError :: trace w)
    /\ (writable (disk w) = true -> disk_full (disk w) = true ->
        content (disk w') = Some Unparsable
        /\ exists w'', SIDPersister.get w' = Ret JNull w'').
Proof.
  unfold SIDPersister.save, SIDPersister.save_body, try_except, bind,
    SIDPersister.open_write, SIDPersister.json_dump.
  destruct (writable (disk w)) eqn:Hw; simpl.
  - destruct (disk_full (disk w)) eqn:Hf; simpl; eexists;
      (split; [ reflexivity | ]); (split; [ discriminate | ]); intros _ Hfull;
      [ | discriminate ].
    split; [ reflexivity | ].
    unfold SIDPersister.get, SIDPersister.get_body, try_except, bind,
      SIDPersister.open_read. cbn.
    destruct (readable (disk w)); eexists; reflexivity.
  - eexists. split; [ reflexivity | ]. split; [ | discriminate ].
    intros _. split; reflexivity.
Qed.

Lemma save_is_best_effort_witness :
  exists w',
    SIDPersister.save (JStr "new") readonly_world = Ret tt w'
    /\ disk w' = disk readonly_world
    /\ trace w' = ExceptionLogged OSError :: trace readonly_world.
Proof.
  destruct (save_is_best_effort (JStr "new") readonly_world) as (w' & Hsave & Hro & _).
  exists w'. split; [ exact Hsave | ]. apply Hro. reflexivity.
Defined.

(** X11: the file holds one token, the last one saved: on a file that can
    be written and read, [save x] then [save y] then [get] returns [y]. *)
Theorem last_save_wins x y w :
  writable (disk w) = true -> disk_full (disk w) = false -> readable (disk w) = true ->
  exists w1 w2 w3,
    SIDPersister.save x w = Ret tt w1
    /\ SIDPersister.save y w1 = Ret tt w2
    /\ SIDPersister.get w2 = Ret y w3.
Proof.
  intros Hw Hf Hr.
  eexists _, _, _. split; [ | split ].
  - unfold SIDPersister.save, SIDPersister.save_body, try_except, bind,
      SIDPersister.open_write, SIDPersister.json_dump.
    rewrite Hw. cbn. rewrite Hf. reflexivity.
  - unfold SIDPersister.save, SIDPersister.save_body, try_except, bind,
      SIDPersister.open_write, SIDPersister.json_dump.
    cbn. rewrite Hw. cbn. rewrite Hf. reflexivity.
  - unfold SIDPersister.get, SIDPersister.get_body, try_except, bind,
      SIDPersister.open_read.
    cbn. rewrite Hr. reflexivity.
Qed.

Lemma last_save_wins_witness :
  exists w1 w2 w3,
    SIDPersister.save (JStr "a") (fresh_world unreachable) = Ret tt w1
    /\ SIDPersister.save (JStr "b") w1 = Ret tt w2
    /\ SIDPersister.get w2 = Ret (JStr "b") w3.
Proof.
  apply (last_save_wins (JStr "a") (JStr "b") (fresh_world unreachable)); reflexivity.
Defined.

(** ** More on the queue *)

Lemma enqueue_each_appends py batch :
  forall w, exists new w1,
    enqueue_each py batch w = Ret tt w1
    /\ map enqueued_with new = batch
    /\ Forall (fun s => sample_type s = "sma") new
    /\ _metrics_queue w1 = (rev new ++ _metrics_queue w)%list.
Proof.
  induction batch as [|[d v] batch IH]; intros w.
  - exists [], w. repeat split. constructor.
  - cbn [enqueue_each]. unfold bind. rewrite enqueue_metrics_appendleft.
    destruct (IH (set_queue
                    ({| sample_type := "sma"; timestamp := wall w (ticks w);
                        tags_device := d; sample_values := v |} :: _metrics_queue w)
                    (tick w))) as (new & w1 & Hrun & Hmap & Hall & Hq).
    exists ({| sample_type := "sma"; timestamp := wall w (ticks w);
               tags_device := d; sample_values := v |} :: new), w1.
    split; [ exact Hrun | split; [ | split ] ].
    + cbn [map]. rewrite Hmap. reflexivity.
    + constructor; [ reflexivity | exact Hall ].
    + rewrite Hq. cbn [_metrics_queue set_queue rev]. rewrite <- app_assoc. reflexivity.
Qed.

(** X12: the queue is first in, first out, for any number of samples: when
    the queue holds the samples [waiting], oldest first, and a batch is
    enqueued after them, a full drain yields [waiting] and then the batch in
    the order of arrival, and leaves the queue empty, so that no sample is
    yielded twice: the next drain yields nothing. *)
Theorem drain_is_first_in_first_out py batch waiting w :
  _metrics_queue w = rev waiting ->
  exists new w1,
    enqueue_each py batch w = Ret tt w1
    /\ map enqueued_with new = batch
    /\ forall fuel,
         length waiting + length batch < fuel ->
         exists w2,
           collect_metrics fuel w1 = Ret (waiting ++ new)%list w2
           /\ _metrics_queue w2 = []
           /\ collect_metrics fuel w2 = Ret [] w2.
Proof.
  intros Hq.
  destruct (enqueue_each_appends py batch w) as (new & w1 & Hrun & Hmap & _ & Hq1).
  exists new, w1. split; [ exact Hrun | split; [ exact Hmap | ] ].
  intros fuel Hfuel.
  assert (Hlen : length new = length batch) by (rewrite <- Hmap; now rewrite length_map).
  exists (set_queue [] w1). split; [ | split ].
  - apply collect_metrics_all.
    + rewrite length_app. lia.
    + rewrite Hq1, Hq, rev_app_distr. reflexivity.
  - reflexivity.
  - rewrite (collect_metrics_all [] fuel); [ reflexivity | simpl; lia | reflexivity ].
Qed.

Lemma drain_is_first_in_first_out_witness :
  exists new w1,
    enqueue_each plain_runtime [("A", ∅); ("B", ∅)] (fresh_world unreachable) = Ret tt w1
    /\ map enqueued_with new = [("A", ∅); ("B", ∅)]
    /\ forall fuel,
         length (@nil sample) + length [("A", ∅ : gmap string pyval); ("B", ∅)] < fuel ->
         exists w2,
           collect_metrics fuel w1 = Ret ([] ++ new)%list w2
           /\ _metrics_queue w2 = []
           /\ collect_metrics fuel w2 = Ret [] w2.
Proof.
  apply (drain_is_first_in_first_out plain_runtime [("A", ∅); ("B", ∅)] []
           (fresh_world unreachable)).
  reflexivity.
Defined.

(** X13: the generator is live: a resumption removes and yields the oldest
    sample only, and a sample enqueued while the generator is suspended is
    yielded by the same drain, after the samples that waited before it. *)
Theorem drain_sees_later_samples py oldest waiting device_id values w :
  _metrics_queue w = rev (oldest :: waiting) ->
  exists w1 w2 s,
    collect_metrics_next w = Ret (Some oldest) w1
    /\ _metrics_queue w1 = rev waiting
    /\ _enqueue_metrics py device_id values w1 = Ret tt w2
    /\ enqueued_with s = (device_id, values)
    /\ forall fuel,
         S (length waiting) < fuel ->
         exists w3,
           collect_metrics fuel w2 = Ret (waiting ++ [s])%list w3
           /\ _metrics_queue w3 = [].
Proof.
  intros Hq. cbn [rev] in Hq.
  eexists _, _, {| sample_type := "sma"; timestamp := wall w (ticks w);
                   tags_device := device_id; sample_values := values |}.
  split; [ | split; [ | split; [ | split ] ] ].
  - unfold collect_metrics_next, try_except, bind.
    rewrite (deque_pop_right _ _ _ Hq). reflexivity.
  - reflexivity.
  - apply enqueue_metrics_appendleft.
  - reflexivity.
  - intros fuel Hfuel. eexists. split.
    + apply collect_metrics_all.
      * rewrite length_app. simpl. lia.
      * cbn [_metrics_queue set_queue tick]. rewrite rev_app_distr. reflexivity.
    + reflexivity.
Qed.

Lemma drain_sees_later_samples_witness :
  exists w1 w2 s,
    collect_metrics_next
      (set_queue [ {| sample_type := "sma"; timestamp := 0; tags_device := "A";
                      sample_values := ∅ |} ] (fresh_world unreachable))
    = Ret (Some {| sample_type := "sma"; timestamp := 0; tags_device := "A";
                   sample_values := ∅ |}) w1
    /\ _metrics_queue w1 = rev []
    /\ _enqueue_metrics plain_runtime "B" ∅ w1 = Ret tt w2
    /\ enqueued_with s = ("B", ∅)
    /\ forall fuel,
         S (length (@nil sample)) < fuel ->
         exists w3,
           collect_metrics fuel w2 = Ret ([] ++ [s])%list w3
           /\ _metrics_queue w3 = [].
Proof.
  apply (drain_sees_later_samples plain_runtime
           {| sample_type := "sma"; timestamp := 0; tags_device := "A";
              sample_values := ∅ |} [] "B" ∅
           (set_queue [ {| sample_type := "sma"; timestamp := 0; tags_device := "A";
                           sample_values := ∅ |} ] (fresh_world unreachable))).
  reflexivity.
Defined.

(** ** Readings that are not numbers *)

(** X14: a field of unexpected structure is tolerated: when the value of a
    key of the payload has a length other than one or lacks the sub-key "1",
    the extraction logs the anomaly and returns no values instead of
    raising, and the loop over the catalog logs 'No values' and leaves the
    metrics as they are; an empty channel list gives no values either. *)
Theorem unexpected_structure_is_tolerated py data key info raw n acc w :
  py_in key data = Ok true ->
  py_getitem data (JStr key) = Ok raw ->
  py_len raw = Ok n ->
  n <> 1 \/ py_in "1" raw = Ok false ->
  _extract_values py key raw (factor info) w
  = Ret [] (emit (Logged ("* Unexpected structure for " ++ key ++ ": " ++ fmt py raw)) w)
  /\ read_field py data (key, info) acc w
     = Ret acc
         (emit (Logged ("* " ++ description info ++ ": No values"))
            (emit (Logged ("* Unexpected structure for " ++ key ++ ": " ++ fmt py raw)) w))
  /\ _extract_values py key (channel []) (factor info) w = Ret [] w.
Proof.
  intros Hin Hget Hlen Hshape.
  assert (Hex : _extract_values py key raw (factor info) w
                = Ret [] (emit (Logged ("* Unexpected structure for " ++ key ++ ": "
                                          ++ fmt py raw)) w)).
  { unfold _extract_values. unfold bind at 1. unfold lift at 1. rewrite Hlen.
    unfold bind at 1.
    destruct (Nat.eqb_spec n 1) as [-> | Hn]; cbn [negb].
    - destruct Hshape as [Hne | Hno]; [ contradiction | ].
      unfold bind at 1. unfold lift at 1. rewrite Hno. reflexivity.
    - reflexivity. }
  split; [ exact Hex | split; [ | reflexivity ] ].
  unfold read_field. cbn [fst snd].
  unfold bind at 1. unfold lift at 1. rewrite Hin.
  unfold bind at 1. unfold lift at 1. rewrite Hget.
  unfold bind at 1. rewrite Hex. reflexivity.
Qed.

Lemma unexpected_structure_is_tolerated_witness :
  _extract_values plain_runtime "6100_00465700" (JObj [])
    (factor {| name := "frequency"; description := "Frequency"; unit_ := "Hz";
               type_ := "gauge"; factor := 100 |})
    (fresh_world unreachable)
  = Ret [] (emit (Logged ("* Unexpected structure for " ++ "6100_00465700" ++ ": "
                            ++ fmt plain_runtime (JObj [])))
              (fresh_world unreachable)).
Proof.
  refine (proj1 (unexpected_structure_is_tolerated plain_runtime
                   (JObj [("6100_00465700", JObj [])]) "6100_00465700"
                   {| name := "frequency"; description := "Frequency"; unit_ := "Hz";
                      type_ := "gauge"; factor := 100 |}
                   (JObj []) 0 ∅ (fresh_world unreachable) _ _ _ _));
    try reflexivity.
  left. discriminate.
Defined.

Section BadReading.
Variables (py : runtime) (key : string) (factor : float).

Lemma clean_value_type_error c v w :
  dict_get "val" c = Some v -> hashable v = false ->
  _clean_value py key (JObj c) factor w = Raise TypeError w.
Proof.
  intros Hc Hv. unfold _clean_value, bind, lift. cbn [py_in py_getitem].
  unfold dict_has. rewrite Hc. cbn [negb].
  destruct v; try discriminate Hv; reflexivity.
Qed.

Lemma clean_each_raises good cs bad rest e :
  Forall2 (scaled py factor) good cs ->
  (forall w, _clean_value py key bad factor w = Raise e w) ->
  forall acc w, exists lines,
    clean_each py key factor (good ++ bad :: rest) acc w = Raise e (writes lines w).
Proof.
  intros Hgood Hbad.
  induction Hgood as [|c o good cs Hc _ IH]; intros acc w.
  - exists []. cbn [app clean_each]. unfold bind. rewrite Hbad. reflexivity.
  - destruct (clean_value_scaled py key factor c o Hc w) as [l1 H1].
    cbn [app clean_each]. unfold bind. rewrite H1.
    destruct o as [q|].
    + destruct (IH (acc ++ [Some q])%list (writes l1 w)) as [l2 H2].
      exists (l2 ++ l1)%list. rewrite H2, writes_app. reflexivity.
    + destruct (IH acc (writes l1 w)) as [l2 H2].
      exists (l2 ++ l1)%list. rewrite H2, writes_app. reflexivity.
Qed.

End BadReading.

Lemma extract_values_single py key factor instance w :
  _extract_values py key (channel [instance]) factor w
  = bind (_clean_value py key instance factor) (fun value => ret [value]) w.
Proof. reflexivity. Qed.

Lemma extract_values_multi py key factor instances w :
  2 <= length instances ->
  _extract_values py key (channel instances) factor w
  = clean_each py key factor instances [] w.
Proof.
  intros Hlen. destruct instances as [|i1 [|i2 rest]]; simpl in Hlen; try lia.
  reflexivity.
Qed.

(** X15: a reading that is a list or an object is not tolerated: wherever
    such an instance stands among the instances of a field, after instances
    that are read without an exception, the extraction raises [TypeError]. *)
Theorem structured_reading_raises py key factor good cs c v rest w :
  Forall2 (scaled py factor) good cs ->
  dict_get "val" c = Some v ->
  hashable v = false ->
  exists lines,
    _extract_values py key (channel (good ++ JObj c :: rest)) factor w
    = Raise TypeError (writes lines w).
Proof.
  intros Hgood Hc Hv.
  assert (Hbad : forall w0, _clean_value py key (JObj c) factor w0 = Raise TypeError w0).
  { intros w0. apply (clean_value_type_error py key factor c v w0 Hc Hv). }
  destruct (Nat.le_gt_cases 2 (length (good ++ JObj c :: rest))) as [Hlen | Hlen].
  - rewrite (extract_values_multi _ _ _ _ _ Hlen).
    apply (clean_each_raises py key factor good cs (JObj c) rest TypeError Hgood Hbad).
  - rewrite length_app in Hlen. cbn [length] in Hlen.
    destruct good as [|g good]; [ | cbn [length] in Hlen; lia ].
    destruct rest as [|r rest]; [ | cbn [length] in Hlen; lia ].
    exists []. cbn [app]. rewrite extract_values_single. unfold bind. rewrite Hbad.
    reflexivity.
Qed.

Lemma structured_reading_raises_witness :
  exists lines,
    _extract_values plain_runtime "6100_00465700"
      (channel ([reading (JInt 5000)] ++ JObj [("val", JArr [])] :: [])) 100
      (fresh_world unreachable)
    = Raise TypeError (writes lines (fresh_world unreachable)).
Proof.
  refine (structured_reading_raises plain_runtime "6100_00465700" 100
            [reading (JInt 5000)] [Some 50%float] [("val", JArr [])] (JArr []) []
            (fresh_world unreachable) _ _ _); try reflexivity.
  apply List.Forall2_cons; [ | apply List.Forall2_nil ].
  eapply (scaled_value _ _ _ (JInt 5000) 5000%float); try reflexivity; discriminate.
Defined.

(** ** The catalog *)

Lemma factors_positive :
  forall key info, In (key, info) FIELD_MAPPING -> (0 <? factor info)%float = true.
Proof.
  assert (H : forallb (fun entry => (0 <? factor (snd entry))%float) FIELD_MAPPING = true)
    by (vm_compute; reflexivity).
  intros key info Hin. rewrite forallb_forall in H. exact (H _ Hin).
Qed.

(** X16: no factor of the catalog is zero or negative, so that for every
    field of the catalog a single numeric reading [v] is extracted as
    [float(v) / factor], without [ZeroDivisionError]. *)
Theorem catalog_reading_is_scaled py key info v x w :
  In (key, info) FIELD_MAPPING ->
  is_number v = true ->
  py_float py v = Ok x ->
  _extract_values py key (channel [reading v]) (factor info) w
  = Ret [Some (x / factor info)%float] w.
Proof.
  intros Hin Hv Hx.
  unfold _extract_values, _clean_value, channel, reading, bind, lift, ret; simpl.
  destruct v; try discriminate Hv;
    rewrite Hx, (py_div_positive _ _ (factors_positive key info Hin)); reflexivity.
Qed.

Lemma catalog_reading_is_scaled_witness :
  _extract_values plain_runtime "6100_40465300" (channel [reading (JInt 2500)])
    (factor {| name := "current_l1"; description := "Current L1"; unit_ := "A";
               type_ := "gauge"; factor := 1000 |})
    (fresh_world unreachable)
  = Ret [Some 2.5%float] (fresh_world unreachable).
Proof.
  refine (catalog_reading_is_scaled plain_runtime "6100_40465300"
            {| name := "current_l1"; description := "Current L1"; unit_ := "A";
               type_ := "gauge"; factor := 1000 |}
            (JInt 2500) 2500%float (fresh_world unreachable) _ _ _); try reflexivity.
  simpl. tauto.
Defined.

(** ** Fields that fail, fields that are absent, keys that are unknown *)

(** After a first answer that is not the error code 401 and has one device
    with a payload, the cycle is the reduction of that payload. *)
Lemma read_data_on_payload py fuel dev w r serial data :
  wire w (posts w) = Ok (JObj r) ->
  py_eq_int (default JNull (dict_get "err" r)) 401 = false ->
  dict_get "result" r = Some (JObj [(serial, data)]) ->
  data <> JNull ->
  _read_data py (S fuel) dev w
  = read_payload py serial data
      (sent (values_endpoint py (sma_inverter_ip dev) (current_sid (sma_inverter_ip dev) w))
         values_json w).
Proof.
  intros Hw H401 Hres Hdata.
  unfold _read_data. unfold bind at 1.
  rewrite (fetch_first py fuel dev w r Hw H401).
  unfold bind at 1. unfold lift at 1. unfold py_in, dict_has. rewrite Hres.
  cbn [negb]. unfold bind at 1. unfold bind at 1.
  unfold lift at 1. unfold py_getitem at 1. rewrite Hres.
  unfold bind at 1. unfold lift at 1. cbn [py_len length Nat.eqb]. unfold ret at 1.
  cbn [negb].
  unfold bind at 1. unfold lift at 1. unfold py_getitem at 1. rewrite Hres.
  unfold bind at 1. unfold lift at 1. cbn [py_keys map fst].
  change (seq_index [serial] 0%Z) with (Ok serial).
  unfold bind at 1. unfold lift at 1.
  unfold bind at 1. unfold lift at 1. cbn [py_getitem dict_get].
  rewrite String.eqb_refl.
  destruct data; try reflexivity. contradiction.
Qed.

Section FailingField.
Variables (py : runtime) (data : json) (key : string) (info : field_info)
  (raw : json) (e : exn) (w0 w0' : world).
Hypothesis Hin : py_in key data = Ok true.
Hypothesis Hraw : py_getitem data (JStr key) = Ok raw.
Hypothesis Hraises : _extract_values py key raw (factor info) w0 = Raise e w0'.

Lemma read_field_raises acc w :
  exists w', read_field py data (key, info) acc w = Raise e w'.
Proof.
  destruct (output_only_extract_values py key (factor info) raw) as (r & lines & Hr).
  rewrite Hr in Hraises. unfold finish in Hraises.
  destruct r as [values | e1]; [ discriminate | ]. injection Hraises as -> _.
  unfold read_field. cbn [fst snd].
  unfold bind at 1. unfold lift at 1. rewrite Hin.
  unfold bind at 1. unfold lift at 1. rewrite Hraw.
  unfold bind at 1. rewrite Hr. eexists. reflexivity.
Qed.

Lemma read_fields_raises entries :
  In (key, info) entries ->
  forall acc w, exists e' w', read_fields py data entries acc w = Raise e' w'.
Proof.
  induction entries as [|entry entries IH]; intros Hentry acc w; [ destruct Hentry | ].
  cbn [read_fields]. unfold bind at 1.
  destruct Hentry as [-> | Hentry].
  - destruct (read_field_raises acc w) as (w' & ->). eauto.
  - destruct (output_only_read_field py data entry acc) as (r & lines & Hr).
    rewrite Hr. unfold finish. destruct r as [acc' | e1]; [ | eauto ].
    apply IH. exact Hentry.
Qed.

End FailingField.

(** X17: one field that cannot be extracted fails the whole cycle: when the
    extraction of a field of the catalog that the payload has raises, the
    cycle raises, and nothing is enqueued, whatever the other fields
    read. *)
Theorem failing_field_fails_the_cycle py fuel dev w r serial data key info raw e w0 w0' :
  wire w (posts w) = Ok (JObj r) ->
  py_eq_int (default JNull (dict_get "err" r)) 401 = false ->
  dict_get "result" r = Some (JObj [(serial, data)]) ->
  In (key, info) FIELD_MAPPING ->
  py_in key data = Ok true ->
  py_getitem data (JStr key) = Ok raw ->
  _extract_values py key raw (factor info) w0 = Raise e w0' ->
  exists e' w',
    _read_data py (S fuel) dev w = Raise e' w'
    /\ _metrics_queue w' = _metrics_queue w.
Proof.
  intros Hw H401 Hres Hentry Hin Hraw Hraises.
  assert (Hdata : data <> JNull) by (intros ->; discriminate Hin).
  assert (Hcycle : exists e' w', _read_data py (S fuel) dev w = Raise e' w').
  { rewrite (read_data_on_payload py fuel dev w r serial data Hw H401 Hres Hdata).
    unfold read_payload, _log_separator, _log_debug.
    unfold bind at 1. unfold logger at 1.
    unfold bind at 1. unfold time_asctime at 1.
    unfold bind at 1. unfold logger at 1.
    unfold bind at 1.
    match goal with
    | |- context [read_fields py data FIELD_MAPPING ?acc ?w3] =>
        destruct (read_fields_raises py data key info raw e w0 w0' Hin Hraw Hraises
                    FIELD_MAPPING Hentry acc w3) as (e' & w' & ->)
    end.
    eauto. }
  destruct Hcycle as (e' & w' & Hcycle). exists e', w'. split; [ exact Hcycle | ].
  pose proof (read_data_outcome py (S fuel) dev w) as Ho.
  rewrite Hcycle in Ho. apply Ho.
Qed.

Lemma failing_field_fails_the_cycle_witness :
  exists e' w',
    _read_data plain_runtime 1 demo_device (fresh_world (answers tagged_frequency))
    = Raise e' w'
    /\ _metrics_queue w' = _metrics_queue (fresh_world (answers tagged_frequency)).
Proof.
  refine (failing_field_fails_the_cycle plain_runtime 0 demo_device
            (fresh_world (answers tagged_frequency))
            [("result", JObj [("3001234567", tagged_frequency)])]
            "3001234567" tagged_frequency "6100_00465700"
            {| name := "frequency"; description := "Frequency"; unit_ := "Hz";
               type_ := "gauge"; factor := 100 |}
            (channel [reading (JArr [JObj [("tag", JInt 303)]])]) TypeError
            (fresh_world unreachable) (fresh_world unreachable) _ _ _ _ _ _ _);
    try reflexivity.
  simpl. tauto.
Defined.

(** X18: a field of the catalog that the payload does not have is left out
    of the sample: its metric name is no key of the values. *)
Theorem absent_field_is_omitted py fuel dev w w' :
  _read_data py fuel dev w = Ret tt w' ->
  exists resp serial data s,
    wire w (pred (posts w')) = Ok (JObj resp)
    /\ dict_get "result" resp = Some (JObj [(serial, data)])
    /\ _metrics_queue w' = s :: _metrics_queue w
    /\ forall key info,
         In (key, info) FIELD_MAPPING ->
         py_in key data = Ok false ->
         sample_values s !! name info = None.
Proof.
  intros H.
  apply cycle_returns in H as (resp & serial & data & mv & t & Hwire & Hres & _ & Hred & Hq).
  eexists resp, serial, data, _.
  split; [ exact Hwire | split; [ exact Hres | split; [ exact Hq | ] ] ].
  intros key info Hin Hno. cbn [sample_values].
  rewrite lookup_insert_ne by (apply not_eq_sym; exact (online_is_no_field key info Hin)).
  destruct Hred as [_ Hfields].
  destruct (Hfields key info Hin) as [[_ Hmv] | (Hyes & _)]; [ exact Hmv | congruence ].
Qed.

Lemma absent_field_is_omitted_witness :
  exists resp serial data s,
    wire (fresh_world (answers null_frequency))
      (pred (posts (world_after
                      (_read_data plain_runtime 1 demo_device
                         (fresh_world (answers null_frequency)))
                      (fresh_world (answers null_frequency)))))
    = Ok (JObj resp)
    /\ dict_get "result" resp = Some (JObj [(serial, data)])
    /\ _metrics_queue (world_after
                         (_read_data plain_runtime 1 demo_device
                            (fresh_world (answers null_frequency)))
                         (fresh_world (answers null_frequency)))
       = s :: _metrics_queue (fresh_world (answers null_frequency))
    /\ forall key info,
         In (key, info) FIELD_MAPPING ->
         py_in key data = Ok false ->
         sample_values s !! name info = None.
Proof.
  apply (absent_field_is_omitted plain_runtime 1 demo_device
           (fresh_world (answers null_frequency))).
  vm_compute. reflexivity.
Defined.

Lemma dict_get_app_other key k v d :
  key <> k -> dict_get key (d ++ [(k, v)]) = dict_get key d.
Proof.
  intros Hne. induction d as [|[k' x] d IH]; cbn [app dict_get].
  - destruct (String.eqb_spec key k); [ contradiction | reflexivity ].
  - destruct (String.eqb key k'); [ reflexivity | exact IH ].
Qed.

Lemma dict_get_app_new k v d :
  dict_get k d = None -> dict_get k (d ++ [(k, v)]) = Some v.
Proof.
  induction d as [|[k' x] d IH]; cbn [app dict_get].
  - now rewrite String.eqb_refl.
  - destruct (String.eqb k k'); [ discriminate | exact IH ].
Qed.

Lemma dict_get_member key x d : In (key, x) d -> dict_get key d <> None.
Proof.
  induction d as [|[k' y] d IH]; intros Hin; [ destruct Hin | ].
  cbn [dict_get]. destruct (String.eqb_spec key k') as [_ | Hne]; [ discriminate | ].
  destruct Hin as [Heq | Hin]; [ injection Heq as <- _; contradiction | exact (IH Hin) ].
Qed.

Lemma bind_ext {A B : Type} (m1 m2 : M A) (k1 k2 : A -> M B) w :
  m1 w = m2 w -> (forall a w1, k1 a w1 = k2 a w1) -> bind m1 k1 w = bind m2 k2 w.
Proof.
  intros Hm Hk. unfold bind. rewrite Hm.
  destruct (m2 w) as [a w1 | e w1 | ]; [ apply Hk | reflexivity | reflexivity ].
Qed.

Section SamePayload.
Variables (py : runtime) (d1 d2 : json).

Lemma read_fields_ext entries :
  (forall key info, In (key, info) entries ->
                    py_in key d1 = py_in key d2
                    /\ py_getitem d1 (JStr key) = py_getitem d2 (JStr key)) ->
  forall acc w, read_fields py d1 entries acc w = read_fields py d2 entries acc w.
Proof.
  induction entries as [|[key info] entries IH]; intros Hsame acc w; [ reflexivity | ].
  cbn [read_fields]. apply bind_ext.
  - destruct (Hsame key info (or_introl eq_refl)) as [Hin Hget].
    unfold read_field. cbn [fst snd]. rewrite Hin, Hget. reflexivity.
  - intros acc' w1. apply IH. intros key' info' Hin. apply (Hsame key' info'). now right.
Qed.

Lemma log_unknown_ext keys :
  (forall key, In key keys -> py_getitem d1 key = py_getitem d2 key) ->
  forall w, log_unknown py d1 keys w = log_unknown py d2 keys w.
Proof.
  induction keys as [|key keys IH]; intros Hsame w; [ reflexivity | ].
  cbn [log_unknown]. rewrite (Hsame key (or_introl eq_refl)).
  apply bind_ext; [ reflexivity | intros known w1 ].
  apply bind_ext; [ reflexivity | intros u w2 ].
  apply IH. intros key' Hin. apply Hsame. now right.
Qed.

End SamePayload.

Lemma bind_assoc {A B C : Type} (m : M A) (k : A -> M B) (h : B -> M C) w :
  bind (bind m k) h w = bind m (fun a => bind (k a) h) w.
Proof.
  unfold bind. destruct (m w) as [a w1 | e w1 | ]; reflexivity.
Qed.

Lemma log_unknown_app py data keys1 keys2 w :
  log_unknown py data (keys1 ++ keys2) w
  = bind (log_unknown py data keys1) (fun _ => log_unknown py data keys2) w.
Proof.
  revert w. induction keys1 as [|key keys1 IH]; intros w; [ reflexivity | ].
  cbn [app log_unknown]. symmetry. rewrite bind_assoc.
  apply bind_ext; [ reflexivity | intros known w1 ].
  rewrite bind_assoc. apply bind_ext; [ reflexivity | intros u w2 ].
  symmetry. apply IH.
Qed.

(** X19: a key of the payload that the catalog does not know is logged and
    changes nothing else: the payload with one more, unknown key gives the
    same queue, with the same sample, as the payload without it, and the
    line 'Unknown key' is the last that the cycle logs. *)
Theorem unknown_key_is_ignored py serial fields k v w w1 :
  read_payload py serial (JObj fields) w = Ret tt w1 ->
  known_key (JStr k) = Ok false ->
  dict_get k fields = None ->
  exists w2,
    read_payload py serial (JObj (fields ++ [(k, v)])) w = Ret tt w2
    /\ _metrics_queue w2 = _metrics_queue w1
    /\ trace w2 = Logged ("* Unknown key " ++ k ++ ": " ++ fmt py v) :: trace w1.
Proof.
  intros H Hunknown Hfresh.
  assert (Hcatalog : forall key info, In (key, info) FIELD_MAPPING -> key <> k).
  { intros key info Hin ->.
    assert (Hk : existsb (fun kv => String.eqb k (fst kv)) FIELD_MAPPING = true).
    { apply existsb_exists. exists (k, info). split; [ exact Hin | apply String.eqb_refl ]. }
    unfold known_key in Hunknown. rewrite Hk in Hunknown. discriminate Hunknown. }
  assert (Hfields : forall acc w0,
             read_fields py (JObj (fields ++ [(k, v)])) FIELD_MAPPING acc w0
             = read_fields py (JObj fields) FIELD_MAPPING acc w0).
  { apply read_fields_ext. intros key info Hin.
    cbn [py_in py_getitem]. unfold dict_has.
    rewrite (dict_get_app_other key k v fields (Hcatalog key info Hin)). split; reflexivity. }
  assert (Hkeys : forall w0,
             log_unknown py (JObj (fields ++ [(k, v)]))
               (map (fun kv => JStr (fst kv)) fields) w0
             = log_unknown py (JObj fields) (map (fun kv => JStr (fst kv)) fields) w0).
  { apply log_unknown_ext. intros key Hin.
    apply in_map_iff in Hin as ([k' x] & <- & Hin). cbn [fst py_getitem].
    rewrite dict_get_app_other; [ reflexivity | ].
    intros ->. exact (dict_get_member k x fields Hin Hfresh). }
  unfold read_payload in H |- *. unfold _log_separator, _log_debug in H |- *.
  apply bind_ret_inv in H as (u1 & w' & H1 & H). injection H1 as _ <-.
  apply bind_ret_inv in H as (now & w' & H2 & H). injection H2 as <- <-.
  apply bind_ret_inv in H as (u3 & w' & H3 & H). injection H3 as _ <-.
  apply bind_ret_inv in H as (mv & w4 & Hmv & H).
  apply bind_ret_inv in H as (keys & w' & Hiter & H).
  apply lift_ret_inv in Hiter as [Hiter ->]. cbn [py_iter] in Hiter. injection Hiter as <-.
  apply bind_ret_inv in H as (u6 & w5 & Hlog & H). destruct u6.
  rewrite enqueue_metrics_appendleft in H. injection H as <-.
  unfold bind at 1. unfold logger at 1.
  unfold bind at 1. unfold time_asctime at 1.
  unfold bind at 1. unfold logger at 1.
  change (wall (emit (Logged dashes) w) (ticks (emit (Logged dashes) w)))
    with (wall w (ticks w)).
  unfold bind at 1. rewrite Hfields, Hmv.
  unfold bind at 1. unfold lift at 1. cbn [py_iter]. rewrite map_app. cbn [map fst].
  unfold bind at 1. rewrite log_unknown_app. unfold bind at 1. rewrite Hkeys, Hlog.
  cbn [log_unknown]. unfold bind at 1. unfold lift at 1. rewrite Hunknown.
  unfold bind at 1. unfold bind at 1. unfold lift at 1. cbn [py_getitem].
  rewrite (dict_get_app_new k v fields Hfresh).
  unfold _log_debug, logger at 1. unfold ret at 1.
  rewrite enqueue_metrics_appendleft.
  eexists. split; [ reflexivity | split; reflexivity ].
Qed.

Lemma unknown_key_is_ignored_witness :
  exists w2,
    read_payload plain_runtime "3001234567"
      (JObj ([("6100_00465700", channel [reading (JInt 5000)])]
             ++ [("6800_00A21E00", reading (JStr "SN"))]))
      (fresh_world unreachable) = Ret tt w2
    /\ _metrics_queue w2
       = _metrics_queue
           (world_after
              (read_payload plain_runtime "3001234567"
                 (JObj [("6100_00465700", channel [reading (JInt 5000)])])
                 (fresh_world unreachable))
              (fresh_world unreachable))
    /\ trace w2
       = Logged ("* Unknown key " ++ "6800_00A21E00" ++ ": "
                   ++ fmt plain_runtime (reading (JStr "SN")))
         :: trace
              (world_after
                 (read_payload plain_runtime "3001234567"
                    (JObj [("6100_00465700", channel [reading (JInt 5000)])])
                    (fresh_world unreachable))
                 (fresh_world unreachable)).
Proof.
  apply (unknown_key_is_ignored plain_runtime "3001234567"
           [("6100_00465700", channel [reading (JInt 5000)])]
           "6800_00A21E00" (reading (JStr "SN")) (fresh_world unreachable)).
  - vm_compute. reflexivity.
  - reflexivity.
  - reflexivity.
Defined.

(** ** The declared metrics *)

Lemma declared_names_distinct :
  Forall (fun g => NoDup (map metric_name (group_metrics g))) metric_definitions.
Proof. apply (bool_decide_unpack _). vm_compute. reflexivity. Qed.

(** X20: the samples agree with [metric_definitions]: every key of the
    values of a sample is the name of a metric declared in the group whose
    type is the type of the sample, and the group declares no name twice. *)
Theorem sample_keys_are_declared py fuel dev w w' :
  _read_data py fuel dev w = Ret tt w' ->
  exists s g,
    _metrics_queue w' = s :: _metrics_queue w
    /\ In g metric_definitions
    /\ group_type g = sample_type s
    /\ NoDup (map metric_name (group_metrics g))
    /\ forall n v,
         sample_values s !! n = Some v ->
         exists m, In m (group_metrics g) /\ metric_name m = n.
Proof.
  intros H.
  apply cycle_returns in H as (resp & serial & data & mv & t & _ & _ & _ & Hred & Hq).
  eexists _, _. split; [ exact Hq | ].
  split; [ left; reflexivity | split; [ reflexivity | split ] ].
  - pose proof declared_names_distinct as Hd. rewrite List.Forall_forall in Hd.
    apply Hd. left. reflexivity.
  - intros n v Hv. cbn [sample_values] in Hv. cbn [group_metrics].
    destruct (string_dec n "online") as [-> | Hn].
    + eexists. split; [ left; reflexivity | reflexivity ].
    + rewrite lookup_insert_ne in Hv by (apply not_eq_sym; exact Hn).
      destruct Hred as [Hother _].
      destruct (in_dec string_dec n (map (fun entry => name (snd entry)) FIELD_MAPPING))
        as [Hin | Hout].
      * apply in_map_iff in Hin as (entry & Hname & Hin).
        exists {| metric_name := name (snd entry);
                  metric_description := description (snd entry);
                  metric_type := type_ (snd entry);
                  metric_unit := unit_ (snd entry) |}.
        split; [ | exact Hname ].
        right. apply (in_map (fun entry =>
                                {| metric_name := name (snd entry);
                                   metric_description := description (snd entry);
                                   metric_type := type_ (snd entry);
                                   metric_unit := unit_ (snd entry) |})
                        FIELD_MAPPING entry Hin).
      * rewrite Hother in Hv; [ discriminate | ].
        intros key info Hin Heq. apply Hout. rewrite <- Heq.
        apply (in_map (fun entry => name (snd entry)) _ (key, info)). exact Hin.
Qed.

Lemma sample_keys_are_declared_witness :
  exists s g,
    _metrics_queue (world_after
                      (_read_data plain_runtime 1 demo_device
                         (fresh_world (answers three_channels)))
                      (fresh_world (answers three_channels)))
    = s :: _metrics_queue (fresh_world (answers three_channels))
    /\ In g metric_definitions
    /\ group_type g = sample_type s
    /\ NoDup (map metric_name (group_metrics g))
    /\ forall n v,
         sample_values s !! n = Some v ->
         exists m, In m (group_metrics g) /\ metric_name m = n.
Proof.
  apply (sample_keys_are_declared plain_runtime 1 demo_device
           (fresh_world (answers three_channels))).
  vm_compute. reflexivity.
Defined.

(** ** Payloads that are read to the end *)

Lemma small_count_converts n : n <= 1000 -> float_of_Z (Z.of_nat n) = Ok (Z_to_float (Z.of_nat n)).
Proof.
  assert (H : forallb (fun k => negb (PrimFloat.is_infinity (Z_to_float (Z.of_nat k))))
                (seq 0 1001) = true) by (vm_compute; reflexivity).
  intros Hn. rewrite forallb_forall in H.
  specialize (H n). unfold float_of_Z.
  destruct (PrimFloat.is_infinity (Z_to_float (Z.of_nat n))); [ | reflexivity ].
  assert (Hin : In n (seq 0 1001)) by (apply in_seq; lia).
  specialize (H Hin). discriminate H.
Qed.

Lemma not_none_length values : length (not_none values) <= length values.
Proof.
  induction values as [|[x|] values IH]; simpl; lia.
Qed.

Lemma filter_is_value_length (cs : list (option float)) :
  length (filter is_value cs) <= length cs.
Proof. apply length_filter. Qed.

Section PlainField.
Variables (py : runtime) (key : string) (info : field_info).
Hypothesis Hentry : In (key, info) FIELD_MAPPING.

Lemma plain_reading_scaled v :
  plain_reading py v -> exists o, scaled py (factor info) (reading v) o.
Proof.
  intros [-> | (Hnum & x & Hx)].
  - exists None. apply scaled_null; reflexivity.
  - exists (Some (x / factor info)%float).
    apply (scaled_value py (factor info) (reading v) v x); try reflexivity.
    + intros ->. discriminate Hnum.
    + exact Hx.
    + apply py_div_positive. exact (factors_positive key info Hentry).
Qed.

Lemma plain_readings_scaled vs :
  Forall (plain_reading py) vs ->
  exists cs, Forall2 (scaled py (factor info)) (map reading vs) cs.
Proof.
  induction 1 as [|v vs Hv _ [cs IH]].
  - exists []. constructor.
  - destruct (plain_reading_scaled v Hv) as [o Ho].
    exists (o :: cs). constructor; assumption.
Qed.

(** The extraction of a plain field returns, no more values than the field
    has readings. *)
Lemma plain_field_extracted raw w :
  plain_field py raw ->
  exists values lines,
    _extract_values py key raw (factor info) w = Ret values (writes lines w)
    /\ length values <= 1000.
Proof.
  intros (vs & -> & Hvs & Hlen).
  destruct (plain_readings_scaled vs Hvs) as [cs Hcs].
  assert (Hcslen : length cs = length vs).
  { apply Forall2_length in Hcs. rewrite length_map in Hcs. congruence. }
  destruct vs as [|v1 [|v2 vs]].
  - exists [], []. split; [ reflexivity | simpl; lia ].
  - cbn [map]. rewrite extract_values_single.
    inversion Hcs as [|c o l l' Ho Hnil]; subst.
    destruct (clean_value_scaled py key (factor info) (reading v1) o Ho w) as [lines Hc].
    exists [o], lines. unfold bind. rewrite Hc. split; [ reflexivity | simpl; lia ].
  - rewrite extract_values_multi by (cbn [map length]; lia).
    destruct (clean_each_scaled py key (factor info) _ cs Hcs [] w) as [lines Hc].
    exists (filter is_value cs), lines. split; [ exact Hc | ].
    pose proof (filter_is_value_length cs). lia.
Qed.

Lemma plain_field_read data raw acc w :
  py_in key data = Ok true ->
  py_getitem data (JStr key) = Ok raw ->
  plain_field py raw ->
  exists acc' w', read_field py data (key, info) acc w = Ret acc' w'.
Proof.
  intros Hin Hraw Hplain.
  destruct (plain_field_extracted raw w Hplain) as (values & lines & Hex & Hlen).
  unfold read_field. cbn [fst snd].
  unfold bind at 1. unfold lift at 1. rewrite Hin.
  unfold bind at 1. unfold lift at 1. rewrite Hraw.
  unfold bind at 1. rewrite Hex.
  destruct values as [|v1 [|v2 values]].
  - eexists _, _. reflexivity.
  - cbn [length Nat.eqb nth]. unfold bind, _log_debug, logger.
    destruct v1; eexists _, _; reflexivity.
  - cbn [length Nat.eqb]. unfold bind at 1. unfold _log_debug at 1, logger at 1.
    unfold bind at 1.
    destruct (output_only_log_each info (v1 :: v2 :: values)) as (r & l2 & Hr).
    rewrite Hr. unfold finish.
    destruct r as [[] | e].
    2:{ exfalso.
        assert (Hnever : forall vals w0 e0 w0', log_each info vals w0 <> Raise e0 w0').
        { induction vals as [|v vals IH]; intros w0 e0 w0'; [ discriminate | ].
          cbn [log_each]. unfold bind, _log_debug, logger. apply IH. }
        apply (Hnever (v1 :: v2 :: values) w e (writes l2 w)).
        rewrite Hr. reflexivity. }
    pose proof (not_none_length (v1 :: v2 :: values)) as Hnn.
    destruct (not_none (v1 :: v2 :: values)) as [|x1 [|x2 xs]] eqn:Hxs.
    + eexists _, _. reflexivity.
    + eexists _, _. reflexivity.
    + cbn [length Nat.eqb Nat.ltb Nat.leb]. unfold bind, lift.
      rewrite small_count_converts by (cbn [length] in Hnn, Hlen |- *; lia).
      eexists _, _. reflexivity.
Qed.

End PlainField.

Lemma plain_fields_read py fields entries :
  (forall key info, In (key, info) entries -> In (key, info) FIELD_MAPPING) ->
  (forall key info raw,
      In (key, info) FIELD_MAPPING -> dict_get key fields = Some raw ->
      plain_field py raw) ->
  forall acc w, exists acc' w',
    read_fields py (JObj fields) entries acc w = Ret acc' w'.
Proof.
  intros Hsub Hplain.
  induction entries as [|[key info] entries IH]; intros acc w.
  - eexists _, _. reflexivity.
  - cbn [read_fields]. unfold bind.
    assert (Hfield : exists acc1 w1,
               read_field py (JObj fields) (key, info) acc w = Ret acc1 w1).
    { destruct (dict_get key fields) as [raw|] eqn:Hget.
      - apply (plain_field_read py key info (Hsub key info (or_introl eq_refl))
                 (JObj fields) raw acc w).
        + cbn [py_in]. unfold dict_has. rewrite Hget. reflexivity.
        + cbn [py_getitem]. rewrite Hget. reflexivity.
        + exact (Hplain key info raw (Hsub key info (or_introl eq_refl)) Hget).
      - unfold read_field. cbn [fst snd py_in]. unfold dict_has. rewrite Hget.
        unfold bind, lift, _log_debug, logger. eexists _, _. reflexivity. }
    destruct Hfield as (acc1 & w1 & ->).
    apply IH. intros key' info' Hin. apply Hsub. now right.
Qed.

Lemma own_keys_logged py fields keys :
  (forall key, In key keys -> exists k x, key = JStr k /\ In (k, x) fields) ->
  forall w, exists w', log_unknown py (JObj fields) keys w = Ret tt w'.
Proof.
  induction keys as [|key keys IH]; intros Hkeys w.
  - eexists. reflexivity.
  - destruct (Hkeys key (or_introl eq_refl)) as (k & x & -> & Hin).
    cbn [log_unknown]. unfold bind at 1. unfold lift at 1. unfold known_key.
    unfold bind at 1.
    destruct (existsb (fun kv => String.eqb k (fst kv)) FIELD_MAPPING).
    + unfold ret at 1. apply IH. intros key' Hin'. apply Hkeys. now right.
    + unfold bind at 1. unfold lift at 1. cbn [py_getitem].
      destruct (dict_get k fields) as [value|] eqn:Hget;
        [ | exfalso; exact (dict_get_member k x fields Hin Hget) ].
      unfold _log_debug, logger. apply IH. intros key' Hin'. apply Hkeys. now right.
Qed.

(** X21: a cycle over a payload as a device sends it returns: when the
    first answer is not the error code 401 and has one device, whose
    payload holds, for the fields of the catalog it has, channel lists of
    at most 1000 readings that are null or numbers, the cycle sends this one
    request and enqueues one sample tagged with the device, whatever other
    keys the payload has. *)
Theorem plain_payload_is_sampled py fuel dev w r serial fields :
  wire w (posts w) = Ok (JObj r) ->
  py_eq_int (default JNull (dict_get "err" r)) 401 = false ->
  dict_get "result" r = Some (JObj [(serial, JObj fields)]) ->
  (forall key info raw,
      In (key, info) FIELD_MAPPING -> dict_get key fields = Some raw ->
      plain_field py raw) ->
  exists w' s,
    _read_data py (S fuel) dev w = Ret tt w'
    /\ _metrics_queue w' = s :: _metrics_queue w
    /\ tags_device s = serial
    /\ posts w' = S (posts w).
Proof.
  intros Hw H401 Hres Hplain.
  rewrite (read_data_on_payload py fuel dev w r serial (JObj fields) Hw H401 Hres)
    by discriminate.
  set (w1 := sent _ values_json w).
  assert (Hret : exists w', read_payload py serial (JObj fields) w1 = Ret tt w'
                            /\ posts w' = posts w1).
  { unfold read_payload, _log_separator, _log_debug.
    unfold bind at 1. unfold logger at 1.
    unfold bind at 1. unfold time_asctime at 1.
    unfold bind at 1. unfold logger at 1.
    unfold bind at 1.
    match goal with
    | |- context [read_fields py (JObj fields) FIELD_MAPPING ?acc ?w3] =>
        destruct (plain_fields_read py fields FIELD_MAPPING (fun _ _ H => H) Hplain acc w3)
          as (mv & w4 & Hfields);
        pose proof (output_only_ret_inv _ _ _ _
                      (output_only_read_fields py (JObj fields) FIELD_MAPPING acc) Hfields)
          as [[l4 Hw4] _]
    end.
    rewrite Hfields. unfold bind at 1. unfold lift at 1. cbn [py_iter].
    unfold bind at 1.
    destruct (own_keys_logged py fields (map (fun kv => JStr (fst kv)) fields)) with (w := w4)
      as (w5 & Hlog).
    { intros key Hin. apply in_map_iff in Hin as ([k x] & <- & Hin). eauto. }
    pose proof (output_only_ret_inv _ _ _ _
                  (output_only_log_unknown py (JObj fields) _) Hlog) as [[l5 Hw5] _].
    rewrite Hlog, enqueue_metrics_appendleft.
    eexists. split; [ reflexivity | ].
    cbn [posts set_queue tick]. rewrite Hw5, posts_writes, Hw4, posts_writes. reflexivity. }
  destruct Hret as (w' & Hret & Hposts).
  pose proof (read_payload_outcome py serial (JObj fields) w1) as Ho.
  rewrite Hret in Ho. destruct Ho as (values & Hq & _).
  eexists w', _. split; [ exact Hret | split; [ exact Hq | split; [ reflexivity | ] ] ].
  rewrite Hposts. reflexivity.
Qed.

Lemma plain_payload_is_sampled_witness :
  exists w' s,
    _read_data plain_runtime 1 demo_device (fresh_world (answers three_channels))
    = Ret tt w'
    /\ _metrics_queue w' = s :: _metrics_queue (fresh_world (answers three_channels))
    /\ tags_device s = "3001234567"
    /\ posts w' = S (posts (fresh_world (answers three_channels))).
Proof.
  refine (plain_payload_is_sampled plain_runtime 0 demo_device
            (fresh_world (answers three_channels))
            [("result", JObj [("3001234567", three_channels)])] "3001234567"
            [("6100_40263F00",
              channel [reading (JInt 100); reading JNull; reading (JInt 300)])]
            eq_refl eq_refl eq_refl _).
  intros key info raw _ Hget. cbn [dict_get] in Hget.
  destruct (String.eqb key "6100_40263F00"); [ | discriminate ].
  injection Hget as <-.
  exists [JInt 100; JNull; JInt 300]. split; [ reflexivity | split; [ | simpl; lia ] ].
  apply List.Forall_cons; [ right; split; [ reflexivity | eexists; reflexivity ] | ].
  apply List.Forall_cons; [ left; reflexivity | ].
  apply List.Forall_cons; [ right; split; [ reflexivity | eexists; reflexivity ] | ].
  apply List.Forall_nil.
Defined.
